(** * Shiksha-box: the container control plane of [app.py]

    A shallow embedding of the Flask handlers of [src/app.py]
    ([list_containers], [start_container], [container_stats],
    [restart_container], [stop_container], [remove_container]) over an
    abstract Docker engine, together with the properties the
    specification states about them.

    Python values are modelled as follows.
    - [int] is [Z] (unbounded).
    - [float] is IEEE binary64, as [SpecFloat.spec_float] at precision 53
      and maximal exponent 1024, with round-to-nearest-even.
    - [str] is [string].
    - exceptions are values of [exn]; a computation that may raise has a
      [result] type; code that talks to the engine lives in the monad [M],
      which threads the engine state, records the engine calls issued and
      propagates exceptions. *)

From Stdlib Require Import ZArith List String Ascii Bool Lia.
From Stdlib Require Import DecimalString DecimalZ.
From Stdlib Require Import SpecFloat.
Import ListNotations.

Local Open Scope string_scope.
Local Open Scope Z_scope.

Set Implicit Arguments.
Set Warnings "-register-all".

(* ------------------------------------------------------------------ *)
(** ** Exceptions *)

(** The exception classes that the handlers can meet.  [DockerNotFound]
    and [DockerAPIError] are [docker.errors.NotFound] and
    [docker.errors.APIError]; [RequestsConnectionError] is
    [requests.exceptions.ConnectionError], which the client's transport
    raises when it cannot talk to the daemon's socket. *)
Inductive exn_class :=
| Exception
| LookupError
| KeyError
| IndexError
| ArithmeticError
| ZeroDivisionError
| OverflowError
| AttributeError
| TypeError
| OSError
| PermissionError
| DockerAPIError
| DockerNotFound
| DockerImageNotFound
| HTTPException
| RequestsConnectionError.

(** The direct base class, [None] for the root [Exception]. *)
Definition base_class (c : exn_class) : option exn_class :=
  match c with
  | Exception => None
  | LookupError => Some Exception
  | KeyError => Some LookupError
  | IndexError => Some LookupError
  | ArithmeticError => Some Exception
  | ZeroDivisionError => Some ArithmeticError
  | OverflowError => Some ArithmeticError
  | AttributeError => Some Exception
  | TypeError => Some Exception
  | OSError => Some Exception
  | PermissionError => Some OSError
  | DockerAPIError => Some OSError
  | DockerNotFound => Some DockerAPIError
  | DockerImageNotFound => Some DockerNotFound
  | HTTPException => Some Exception
  | RequestsConnectionError => Some OSError
  end.

Definition exn_class_eqb (c d : exn_class) : bool :=
  match c, d with
  | Exception, Exception | LookupError, LookupError | KeyError, KeyError
  | IndexError, IndexError | ArithmeticError, ArithmeticError
  | ZeroDivisionError, ZeroDivisionError | OverflowError, OverflowError
  | AttributeError, AttributeError | TypeError, TypeError
  | OSError, OSError | PermissionError, PermissionError
  | DockerAPIError, DockerAPIError | DockerNotFound, DockerNotFound
  | DockerImageNotFound, DockerImageNotFound
  | HTTPException, HTTPException
  | RequestsConnectionError, RequestsConnectionError => true
  | _, _ => false
  end.

(** [issubclass c d]: [d] is [c] or one of its bases.  The hierarchy has
    depth four, so four steps up are enough. *)
Fixpoint issubclass_fuel (n : nat) (c d : exn_class) : bool :=
  exn_class_eqb c d ||
  match n with
  | O => false
  | S n' =>
      match base_class c with
      | Some b => issubclass_fuel n' b d
      | None => false
      end
  end.

Definition issubclass : exn_class -> exn_class -> bool := issubclass_fuel 4.

(** A raised exception: its class, [str(e)], and, for the engine's API
    errors, the text of [e.explanation]. *)
Record exn := mkExn {
  exn_cls : exn_class;
  exn_str : string;
  exn_explanation : string
}.

Definition isinstance (e : exn) (c : exn_class) : bool :=
  issubclass (exn_cls e) c.

(** The outcome of an expression that may raise. *)
Inductive result (A : Type) :=
| Ok (a : A)
| Raise (e : exn).
Arguments Ok {A} a.
Arguments Raise {A} e.

Definition rbind {A B} (r : result A) (f : A -> result B) : result B :=
  match r with
  | Ok a => f a
  | Raise e => Raise e
  end.

Declare Scope result_scope.
Delimit Scope result_scope with result.
Notation "x <~ c1 ;; c2" := (rbind c1 (fun x => c2))
  (at level 61, c1 at next level, right associativity) : result_scope.

(* ------------------------------------------------------------------ *)
(** ** Floats: IEEE binary64 *)

Definition prec : Z := 53.
Definition emax : Z := 1024.

Definition float := spec_float.

Definition fmul : float -> float -> float := SFmul prec emax.
Definition fleb : float -> float -> bool := SFleb.

Definition is_finite (x : float) : bool :=
  match x with
  | S754_zero _ | S754_finite _ _ _ => true
  | _ => false
  end.

(** An integer as an exact (unrounded) operand. *)
Definition exact_int (z : Z) : spec_float :=
  match z with
  | Z0 => S754_zero false
  | Zpos p => S754_finite false p 0
  | Zneg p => S754_finite true p 0
  end.

(** [float(z)]: the nearest binary64, [OverflowError] when there is none. *)
Definition float_of_int (z : Z) : result float :=
  let f := binary_normalize prec emax z 0 false in
  if is_finite f then Ok f
  else Raise (mkExn OverflowError "int too large to convert to float" "").

(** The float literals of the source. *)
Definition f0_0 : float := S754_zero false.
Definition f100_0 : float := Eval vm_compute in binary_normalize prec emax 100 0 false.

(** [a / b] on two ints: true division.  CPython rounds the exact
    quotient once, to nearest even; it raises [ZeroDivisionError] on a zero
    divisor and [OverflowError] when the quotient is out of range. *)
Definition int_truediv (a b : Z) : result float :=
  if b =? 0 then Raise (mkExn ZeroDivisionError "division by zero" "")
  else
    let q := SFdiv prec emax (exact_int a) (exact_int b) in
    if is_finite q then Ok q
    else Raise (mkExn OverflowError
                  "integer division result too large for a float" "").

(** [float * int]: the int is converted first. *)
Definition fmul_int (x : float) (n : Z) : result float :=
  (y <~ float_of_int n ;; Ok (fmul x y))%result.

(** Round-half-even of the rational [n / d], for [d > 0]. *)
Definition div_half_even (n d : Z) : Z :=
  let q := n / d in
  let r := n mod d in
  match 2 * r ?= d with
  | Lt => q
  | Gt => q + 1
  | Eq => if Z.even q then q else q + 1
  end.

(** [round(x, ndigits)] on a float, for [ndigits >= 0].  CPython converts
    the exact binary value to the nearest decimal with [ndigits] places
    (ties to even) and reads that decimal back as a float; infinities and
    NaN round to themselves, and a zero result keeps the sign. *)
Definition py_round (x : float) (ndigits : nat) : result float :=
  match x with
  | S754_finite s m e =>
      let p := 10 ^ Z.of_nat ndigits in
      let k :=
        if 0 <=? e then Zpos m * 2 ^ e * p
        else div_half_even (Zpos m * p) (2 ^ (- e)) in
      match k with
      | Z0 => Ok (S754_zero s)
      | _ =>
          let r := SFdiv prec emax (exact_int (if s then - k else k)) (exact_int p) in
          if is_finite r then Ok r
          else Raise (mkExn OverflowError
                        "rounded value too large to represent" "")
      end
  | _ => Ok x
  end.

(* ------------------------------------------------------------------ *)
(** ** Strings *)

(** [format_int n]: the decimal text an f-string gives for an int. *)
Definition format_int (n : Z) : string :=
  NilZero.string_of_int (Z.to_int n).

(** [sub in s] on strings. *)
Fixpoint contains (sub s : string) : bool :=
  if String.prefix sub s then true
  else
    match s with
    | EmptyString => false
    | String _ s' => contains sub s'
    end.

(** [s in l] on a list of strings. *)
Definition str_in (s : string) (l : list string) : bool :=
  existsb (String.eqb s) l.

(** [len(l)]. *)
Definition len {A} (l : list A) : Z := Z.of_nat (List.length l).

(* ------------------------------------------------------------------ *)
(** ** JSON values and HTTP responses *)

Inductive json :=
| JNull
| JBool (b : bool)
| JInt (n : Z)
| JFloat (x : float)
| JStr (s : string)
| JList (l : list json)
| JDict (d : list (string * json)).

(** Lookup in a dict, the first binding of the key. *)
Fixpoint dict_lookup (d : list (string * json)) (k : string) : option json :=
  match d with
  | [] => None
  | (k', v) :: d' => if String.eqb k k' then Some v else dict_lookup d' k
  end.

(** [d.get(k, default)]. *)
Definition dict_get (d : list (string * json)) (k : string) (default : json) : json :=
  match dict_lookup d k with
  | Some v => v
  | None => default
  end.

(** What a view function hands back to Flask: a JSON body and a status
    code.  [jsonify] alone gives status 200. *)
Record Response := mkResponse {
  body : json;
  status_code : Z
}.

Definition jsonify (j : json) : Response := mkResponse j 200.

(** A request, as far as the handlers look at it: the outcome of
    [request.get_json()].  Flask raises on a body it cannot parse; on an
    absent body it raises or returns [None], depending on its version. *)
Record Request := mkRequest {
  get_json : result json
}.

(** The failure body that the catch-all handlers build. *)
Definition failure (msg : string) : json :=
  JDict [("success", JBool false); ("error", JStr msg)].

(* ------------------------------------------------------------------ *)
(** ** The engine *)

(** A container object of the client library, with the attributes the
    handlers read.  They are a cache; [reload] refreshes them. *)
Record Container := mkContainer {
  short_id : string;
  name : string;
  status : string
}.

(** The keys of a stats sample that [container_stats] reads.  [None] is
    an absent key. *)
Record CpuUsage := mkCpuUsage {
  total_usage : option Z;
  percpu_usage : option (list Z)
}.

Record CpuStats := mkCpuStats {
  cpu_usage : option CpuUsage;
  system_cpu_usage : option Z
}.

Record MemoryStats := mkMemoryStats {
  usage : option Z
}.

Record Stats := mkStats {
  cpu_stats : option CpuStats;
  precpu_stats : option CpuStats;
  memory_stats : option MemoryStats
}.

(** The keyword arguments of [client.containers.run]. *)
Record RunParams := mkRunParams {
  run_image : string;
  run_name : json;
  run_detach : bool;
  run_tty : bool;
  run_ports : list (string * Z);
  run_command : list string;
  run_environment : list string
}.

(** The engine calls a handler can issue. *)
Inductive Call :=
| CList (all : bool)
| CGet (container_id : string)
| CReload (c : Container)
| CImageTags (c : Container)
| CStats (c : Container)
| CRun (p : RunParams)
| CStart (c : Container)
| CRestart (c : Container)
| CStop (c : Container)
| CRemove (c : Container) (force : bool).

(** The Docker client, over an engine state [W].  Reads leave the state
    alone; the lifecycle calls return the next state as well, also when
    they raise. *)
Class Engine (W : Type) := {
  containers_list : bool -> W -> result (list Container);
  containers_get : string -> W -> result Container;
  container_reload : Container -> W -> result Container;
  container_image_tags : Container -> W -> result (list string);
  container_stats_sample : Container -> W -> result Stats;
  containers_run : RunParams -> W -> result Container * W;
  container_start : Container -> W -> result unit * W;
  container_restart : Container -> W -> result unit * W;
  container_stop : Container -> W -> result unit * W;
  container_remove : Container -> bool -> W -> result unit * W
}.

(* ------------------------------------------------------------------ *)
(** ** The handler monad *)

Section Handlers.

Context {W : Type} {engine : Engine W}.

(** A handler step: from an engine state to an outcome, the next state and
    the engine calls issued, in order. *)
Definition M (A : Type) : Type := W -> result A * W * list Call.

Definition ret {A} (a : A) : M A := fun w => (Ok a, w, []).

Definition raise {A} (e : exn) : M A := fun w => (Raise e, w, []).

Definition bind {A B} (m : M A) (f : A -> M B) : M B :=
  fun w =>
    match m w with
    | (Ok a, w1, l1) =>
        let '(r, w2, l2) := f a w1 in (r, w2, (l1 ++ l2)%list)
    | (Raise e, w1, l1) => (Raise e, w1, l1)
    end.

(** [try: m  except Exception as e: h e]. *)
Definition try_except {A} (m : M A) (h : exn -> M A) : M A :=
  fun w =>
    match m w with
    | (Ok a, w1, l1) => (Ok a, w1, l1)
    | (Raise e, w1, l1) =>
        let '(r, w2, l2) := h e w1 in (r, w2, (l1 ++ l2)%list)
    end.

Definition lift {A} (r : result A) : M A := fun w => (r, w, []).

Definition query {A} (c : Call) (f : W -> result A) : M A :=
  fun w => (f w, w, [c]).

Definition command {A} (c : Call) (f : W -> result A * W) : M A :=
  fun w => let '(r, w') := f w in (r, w', [c]).

End Handlers.

Declare Scope monad_scope.
Delimit Scope monad_scope with monad.
Notation "x <- c1 ;; c2" := (bind c1 (fun x => c2))
  (at level 61, c1 at next level, right associativity) : monad_scope.
Notation "c1 ;; c2" := (bind c1 (fun _ => c2))
  (at level 61, right associativity) : monad_scope.

(* ------------------------------------------------------------------ *)
(** ** The handlers of [app.py] *)

Section App.

Context {W : Type} {engine : Engine W}.

Local Open Scope monad_scope.

(** The client calls, each recorded as it is issued. *)
Definition client_containers_list (all : bool) : M (list Container) :=
  query (CList all) (containers_list all).

Definition client_containers_get (container_id : string) : M Container :=
  query (CGet container_id) (containers_get container_id).

Definition reload (c : Container) : M Container :=
  query (CReload c) (container_reload c).

Definition image_tags (c : Container) : M (list string) :=
  query (CImageTags c) (container_image_tags c).

Definition stats (c : Container) : M Stats :=
  query (CStats c) (container_stats_sample c).

Definition run (p : RunParams) : M Container :=
  command (CRun p) (containers_run p).

Definition start (c : Container) : M unit :=
  command (CStart c) (container_start c).

Definition restart (c : Container) : M unit :=
  command (CRestart c) (container_restart c).

Definition stop (c : Container) : M unit :=
  command (CStop c) (container_stop c).

Definition remove (c : Container) (force : bool) : M unit :=
  command (CRemove c force) (container_remove c force).

(** *** [list_containers] *)

(** [l[0]]. *)
Definition first_item (l : list string) : result string :=
  match l with
  | [] => Raise (mkExn IndexError "list index out of range" "")
  | x :: _ => Ok x
  end.

(** The [try] block of the loop body:
    [c.image.tags[0] if c.image.tags else 'untagged'], with
    ['unknown'] on any exception.  The condition is evaluated first, the
    selected branch reads [c.image.tags] again. *)
Definition image_name_of (c : Container) : M string :=
  try_except
    (tags <- image_tags c ;;
     match tags with
     | [] => ret "untagged"
     | _ :: _ => tags' <- image_tags c ;; lift (first_item tags')
     end)
    (fun _ => ret "unknown").

Definition container_entry (c : Container) (image_name : string) : json :=
  JDict [("id", JStr (short_id c)); ("name", JStr (name c));
         ("status", JStr (status c)); ("image", JStr image_name)].

(** The [for] loop, appending to [containers]. *)
Fixpoint list_loop (cs : list Container) (containers : list json) : M (list json) :=
  match cs with
  | [] => ret containers
  | c :: cs' =>
      image_name <- image_name_of c ;;
      list_loop cs' (containers ++ [container_entry c image_name])%list
  end.

Definition list_containers : M Response :=
  cs <- client_containers_list true ;;
  containers <- list_loop cs [] ;;
  ret (jsonify (JList containers)).

(** *** [start_container] *)

(** The attribute lookup [data.get]: only a dict has it. *)
Definition getattr_get (data : json) : result (list (string * json)) :=
  let no_get (ty : string) :=
    Raise (mkExn AttributeError ("'" ++ ty ++ "' object has no attribute 'get'") "") in
  match data with
  | JDict d => Ok d
  | JNull => no_get "NoneType"
  | JBool _ => no_get "bool"
  | JInt _ => no_get "int"
  | JFloat _ => no_get "float"
  | JStr _ => no_get "str"
  | JList _ => no_get "list"
  end.

Definition base_port : Z := 5050.

Definition default_name (existing : list Container) : string :=
  "student_" ++ format_int (len existing + 1).

Definition access_url (port : Z) : string :=
  "http://localhost:" ++ format_int port.

Definition wetty_params (name : json) (port : Z) : RunParams :=
  mkRunParams "wettyoss/wetty" name true true [("3000/tcp", port)]
    ["yarn"; "start"; "--"; "--command"; "/bin/sh"] ["WETTY_BASE=/"].

Definition created (container : Container) (name : json) (port : Z) : json :=
  JDict [("success", JBool true);
         ("id", JStr (short_id container));
         ("name", name);
         ("port", JInt port);
         ("url", JStr (access_url port))].

(** The [try] block. *)
Definition start_container_try (name : json) (port : Z) : M Response :=
  container <- run (wetty_params name port) ;;
  ret (jsonify (created container name port)).

(** The two lines before the [try] are not covered by it: what they raise
    leaves the handler. *)
Definition start_container (req : Request) : M Response :=
  data <- lift (get_json req) ;;
  get <- lift (getattr_get data) ;;
  existing <- client_containers_list true ;;
  let name := dict_get get "name" (JStr (default_name existing)) in
  running <- client_containers_list false ;;
  let port := base_port + len running in
  try_except (start_container_try name port)
    (fun e => ret (jsonify (failure (exn_str e)))).

(** *** [container_stats] *)

(** [d[key]] on a key that may be absent. *)
Definition subscript {A} (field : option A) (key : string) : result A :=
  match field with
  | Some v => Ok v
  | None => Raise (mkExn KeyError ("'" ++ key ++ "'") "")
  end.

(** [stats[which]['cpu_usage']['total_usage']]. *)
Definition total_usage_of (which : option CpuStats) (key : string) : result Z :=
  (cs <~ subscript which key ;;
   cu <~ subscript (cpu_usage cs) "cpu_usage" ;;
   subscript (total_usage cu) "total_usage")%result.

(** [stats[which]['system_cpu_usage']]. *)
Definition system_usage_of (which : option CpuStats) (key : string) : result Z :=
  (cs <~ subscript which key ;;
   subscript (system_cpu_usage cs) "system_cpu_usage")%result.

(** [len(stats['cpu_stats']['cpu_usage'].get('percpu_usage', [])) or 1]. *)
Definition num_cpus_of (percpu : option (list Z)) : Z :=
  let n := len (match percpu with Some l => l | None => [] end) in
  if n =? 0 then 1 else n.

(** [(cpu_delta / system_delta) * num_cpus * 100.0
     if system_delta > 0 and cpu_delta > 0 else 0.0]. *)
Definition cpu_percent_of (cpu_delta system_delta num_cpus : Z) : result float :=
  if (system_delta >? 0) && (cpu_delta >? 0) then
    (q <~ int_truediv cpu_delta system_delta ;;
     r <~ fmul_int q num_cpus ;;
     Ok (fmul r f100_0))%result
  else Ok f0_0.

(** The computation between the [stats] call and the [return]. *)
Definition stats_body (st : Stats) : result json :=
  (t1 <~ total_usage_of (cpu_stats st) "cpu_stats" ;;
   t0 <~ total_usage_of (precpu_stats st) "precpu_stats" ;;
   let cpu_delta := t1 - t0 in
   s1 <~ system_usage_of (cpu_stats st) "cpu_stats" ;;
   s0 <~ system_usage_of (precpu_stats st) "precpu_stats" ;;
   let system_delta := s1 - s0 in
   cs <~ subscript (cpu_stats st) "cpu_stats" ;;
   cu <~ subscript (cpu_usage cs) "cpu_usage" ;;
   let num_cpus := num_cpus_of (percpu_usage cu) in
   cpu_percent <~ cpu_percent_of cpu_delta system_delta num_cpus ;;
   ms <~ subscript (memory_stats st) "memory_stats" ;;
   u <~ subscript (usage ms) "usage" ;;
   mem_usage <~ int_truediv u (1024 ^ 2) ;;
   cpu <~ py_round cpu_percent 2 ;;
   memory <~ py_round mem_usage 2 ;;
   Ok (JDict [("success", JBool true); ("cpu", JFloat cpu);
              ("memory", JFloat memory)]))%result.

(** The [try] block. *)
Definition container_stats_try (container_id : string) : M Response :=
  container <- client_containers_get container_id ;;
  st <- stats container ;;
  j <- lift (stats_body st) ;;
  ret (jsonify j).

Definition container_stats (container_id : string) : M Response :=
  try_except (container_stats_try container_id)
    (fun e => ret (jsonify (failure (exn_str e)))).

(** *** [restart_container] *)

Definition success_message (msg : string) : json :=
  JDict [("success", JBool true); ("message", JStr msg)].

(** The [try] block, up to the message. *)
Definition restart_container_try (container_id : string) : M string :=
  container <- client_containers_get container_id ;;
  container <- reload container ;;
  if String.eqb (status container) "exited" then
    start container ;;
    ret ("Container " ++ name container ++ " started successfully.")
  else if String.eqb (status container) "running" then
    restart container ;;
    ret ("Container " ++ name container ++ " restarted successfully.")
  else if str_in (status container) ["paused"; "created"] then
    start container ;;
    ret ("Container " ++ name container ++ " resumed successfully.")
  else
    start container ;;
    ret ("Container " ++ name container ++ " started.").

(** The [except] clauses, tried in order. *)
Definition restart_except (e : exn) : Response :=
  if isinstance e DockerNotFound then
    mkResponse (failure "Container not found. Please refresh list.") 404
  else if isinstance e DockerAPIError then
    jsonify (failure ("Docker API error: " ++ exn_explanation e))
  else if isinstance e PermissionError then
    jsonify (failure "Permission denied to access Docker socket.")
  else
    jsonify (failure (exn_str e)).

Definition restart_container (container_id : string) : M Response :=
  try_except
    (msg <- restart_container_try container_id ;;
     ret (jsonify (success_message msg)))
    (fun e => ret (restart_except e)).

(** *** [stop_container] and [remove_container] *)

Definition stop_container_try (container_id : string) : M Response :=
  container <- client_containers_get container_id ;;
  stop container ;;
  ret (jsonify (success_message ("Container " ++ container_id ++ " stopped"))).

Definition stop_container (container_id : string) : M Response :=
  try_except (stop_container_try container_id)
    (fun e => ret (jsonify (failure (exn_str e)))).

Definition remove_container_try (container_id : string) : M Response :=
  container <- client_containers_get container_id ;;
  remove container true ;;
  ret (jsonify (success_message ("Container " ++ container_id ++ " removed"))).

Definition remove_container (container_id : string) : M Response :=
  try_except (remove_container_try container_id)
    (fun e => ret (jsonify (failure (exn_str e)))).

End App.

(* ------------------------------------------------------------------ *)
(** ** A reference engine

    A small executable engine: the containers it knows, each with its
    image tags and its stats sample.  It is one instance of the interface;
    the general theorems quantify over all of them. *)

Module RefEngine.

Record Entry := mkEntry {
  entry_container : Container;
  entry_tags : result (list string);
  entry_stats : result Stats
}.

Definition World := list Entry.

Definition not_found (what : string) : exn :=
  mkExn DockerNotFound ("404 Client Error: Not Found (No such container: " ++ what ++ ")")
    ("No such container: " ++ what).

Definition matches (container_id : string) (e : Entry) : bool :=
  String.eqb (short_id (entry_container e)) container_id
  || String.eqb (name (entry_container e)) container_id.

Definition lookup (container_id : string) (w : World) : result Entry :=
  match find (matches container_id) w with
  | Some e => Ok e
  | None => Raise (not_found container_id)
  end.

Definition is_running (e : Entry) : bool :=
  String.eqb (status (entry_container e)) "running".

Definition set_status (container_id new_status : string) (w : World) : World :=
  map (fun e =>
         if String.eqb (short_id (entry_container e)) container_id
         then mkEntry (mkContainer (short_id (entry_container e))
                                   (name (entry_container e)) new_status)
                      (entry_tags e) (entry_stats e)
         else e) w.

Definition transition (new_status : string) (c : Container) (w : World)
  : result unit * World :=
  match lookup (short_id c) w with
  | Ok _ => (Ok tt, set_status (short_id c) new_status w)
  | Raise e => (Raise e, w)
  end.

Definition ref_remove (c : Container) (force : bool) (w : World)
  : result unit * World :=
  match lookup (short_id c) w with
  | Ok e =>
      if is_running e && negb force then
        (Raise (mkExn DockerAPIError "409 Client Error: Conflict"
                  "cannot remove a running container"), w)
      else
        (Ok tt, filter (fun e' => negb (matches (short_id c) e')
                                  && negb (matches (name c) e')) w)
  | Raise e => (Raise e, w)
  end.

Definition ref_run (p : RunParams) (w : World) : result Container * World :=
  let fresh := "c" ++ format_int (len w + 1) in
  let chosen := match run_name p with JStr s => s | _ => fresh end in
  match find (matches chosen) w with
  | Some _ =>
      (Raise (mkExn DockerAPIError "409 Client Error: Conflict"
                ("The container name " ++ chosen ++ " is already in use")), w)
  | None =>
      let c := mkContainer fresh chosen "running" in
      let e := mkEntry c (Ok [run_image p ++ ":latest"])
                 (Raise (mkExn KeyError "'cpu_stats'" "")) in
      (Ok c, (w ++ [e])%list)
  end.

#[export] Instance ref_engine : Engine World := {
  containers_list all w :=
    Ok (map entry_container (filter (fun e => all || is_running e) w));
  containers_get container_id w :=
    (e <~ lookup container_id w ;; Ok (entry_container e))%result;
  container_reload c w :=
    (e <~ lookup (short_id c) w ;; Ok (entry_container e))%result;
  container_image_tags c w :=
    (e <~ lookup (short_id c) w ;; entry_tags e)%result;
  container_stats_sample c w :=
    (e <~ lookup (short_id c) w ;; entry_stats e)%result;
  containers_run := ref_run;
  container_start := transition "running";
  container_restart := transition "running";
  container_stop := transition "exited";
  container_remove := ref_remove
}.

(** Sample data. *)
Definition sample (cpu1 cpu0 sys1 sys0 : Z) (percpu : option (list Z)) (mem : Z) : Stats :=
  mkStats (Some (mkCpuStats (Some (mkCpuUsage (Some cpu1) percpu)) (Some sys1)))
          (Some (mkCpuStats (Some (mkCpuUsage (Some cpu0) None)) (Some sys0)))
          (Some (mkMemoryStats (Some mem))).

Definition alice : Entry :=
  mkEntry (mkContainer "aaa111" "student_1" "running")
          (Ok ["wettyoss/wetty:latest"; "wetty:dev"])
          (Ok (sample 150 100 1500 1000 (Some [70; 80]) 104857600)).

Definition bob : Entry :=
  mkEntry (mkContainer "bbb222" "bob" "exited")
          (Ok [])
          (Ok (mkStats None None None)).

Definition carol : Entry :=
  mkEntry (mkContainer "ccc333" "carol" "paused")
          (Raise (mkExn DockerImageNotFound "404 Client Error: Not Found (No such image)"
                    "No such image"))
          (Ok (sample 100 100 1000 1000 None 1572864)).

Definition world0 : World := [alice; bob; carol].

End RefEngine.

(* ------------------------------------------------------------------ *)
(** ** An unreachable engine

    The client when the daemon does not answer: every call raises the
    connection error and nothing changes. *)

Module DownEngine.

Definition unreachable : exn :=
  mkExn RequestsConnectionError
    "('Connection aborted.', ConnectionRefusedError(111, 'Connection refused'))" "".

#[export] Instance down_engine : Engine unit := {
  containers_list _ _ := Raise unreachable;
  containers_get _ _ := Raise unreachable;
  container_reload _ _ := Raise unreachable;
  container_image_tags _ _ := Raise unreachable;
  container_stats_sample _ _ := Raise unreachable;
  containers_run _ w := (Raise unreachable, w);
  container_start _ w := (Raise unreachable, w);
  container_restart _ w := (Raise unreachable, w);
  container_stop _ w := (Raise unreachable, w);
  container_remove _ _ w := (Raise unreachable, w)
}.

End DownEngine.

(* ------------------------------------------------------------------ *)
(** ** An engine behind an inaccessible socket

    The client when the process may not open the daemon's socket: the
    operating system answers [PermissionError(13, 'Permission denied')],
    and the transport hands it on wrapped in its own connection error,
    which is what every client call raises. *)

Module DeniedEngine.

Definition socket_denied : exn :=
  mkExn RequestsConnectionError
    "('Connection aborted.', PermissionError(13, 'Permission denied'))" "".

#[export] Instance denied_engine : Engine unit := {
  containers_list _ _ := Raise socket_denied;
  containers_get _ _ := Raise socket_denied;
  container_reload _ _ := Raise socket_denied;
  container_image_tags _ _ := Raise socket_denied;
  container_stats_sample _ _ := Raise socket_denied;
  containers_run _ w := (Raise socket_denied, w);
  container_start _ w := (Raise socket_denied, w);
  container_restart _ w := (Raise socket_denied, w);
  container_stop _ w := (Raise socket_denied, w);
  container_remove _ _ w := (Raise socket_denied, w)
}.

End DeniedEngine.


(* ------------------------------------------------------------------ *)
(** ** The vocabulary of the specification *)

(** [has_sign s x]: [x] is a number (not NaN) whose sign bit is [s]. *)
Definition has_sign (s : bool) (x : float) : Prop :=
  match x with
  | S754_zero s' | S754_infinity s' | S754_finite s' _ _ => s' = s
  | S754_nan => False
  end.

(** [below d x]: [x] is finite and, when not zero, of magnitude under
    [2 ^ d]. *)
Definition below (d : Z) (x : float) : Prop :=
  match x with
  | S754_zero _ => True
  | S754_finite _ m e => e <= d /\ Zpos m < 2 ^ (d - e)
  | _ => False
  end.

(** The invariant of rounding: a non-negative mantissa under
    [2 ^ (d - e)] at an exponent [e <= d]. *)
Definition under (d m e : Z) : Prop :=
  0 <= m /\ e <= d /\ m < 2 ^ (d - e).

(** [rounded_to ndigits x r]: [r] is [x] rounded to [ndigits] decimal
    places.  For a finite [x] of magnitude [m * 2 ^ e] there is an integer
    [k] within one half of [m * 2 ^ e * 10 ^ ndigits], and [r] is the
    binary64 nearest to [k / 10 ^ ndigits], with the sign of [x]. *)
Definition rounded_to (ndigits : nat) (x r : float) : Prop :=
  match x with
  | S754_finite s m e =>
      exists k,
        0 <= k
        /\ 2 * Z.abs (Zpos m * 2 ^ Z.max 0 e * 10 ^ Z.of_nat ndigits
                      - k * 2 ^ Z.max 0 (- e)) <= 2 ^ Z.max 0 (- e)
        /\ r = match k with
               | Z0 => S754_zero s
               | _ => SFdiv prec emax (exact_int (if s then - k else k))
                        (exact_int (10 ^ Z.of_nat ndigits))
               end
  | _ => r = x
  end.

(** A stats sample with every counter that [container_stats] reads. *)
Definition full_sample (t1 t0 s1 s0 : Z) (percpu percpu0 : option (list Z)) (u : Z)
  : Stats :=
  mkStats (Some (mkCpuStats (Some (mkCpuUsage (Some t1) percpu)) (Some s1)))
          (Some (mkCpuStats (Some (mkCpuUsage (Some t0) percpu0)) (Some s0)))
          (Some (mkMemoryStats (Some u))).



(** The failure categories of the specification. *)
Inductive category :=
| NotFoundError
| PermissionDenied
| EngineError
| Uncategorized.

Definition categorize (e : exn) : category :=
  if isinstance e DockerNotFound then NotFoundError
  else if isinstance e PermissionError then PermissionDenied
  else if isinstance e DockerAPIError then EngineError
  else Uncategorized.

(** What the caller sees for each category. *)
Definition category_response (k : category) (e : exn) : Response :=
  match k with
  | NotFoundError =>
      mkResponse (failure "Container not found. Please refresh list.") 404
  | PermissionDenied =>
      mkResponse (failure "Permission denied to access Docker socket.") 200
  | EngineError =>
      mkResponse (failure ("Docker API error: " ++ exn_explanation e)) 200
  | Uncategorized =>
      mkResponse (failure (exn_str e)) 200
  end.

(** The display image of a listing entry, from the outcome of the tag
    resolution. *)
Definition display_image (tags : result (list string)) : string :=
  match tags with
  | Ok (t :: _) => t
  | Ok [] => "untagged"
  | Raise _ => "unknown"
  end.

(** Every [remove] call in a log is forced. *)
Definition forced (c : Call) : bool :=
  match c with
  | CRemove _ force => force
  | _ => true
  end.

(** The request whose body parses to the JSON object [d]. *)
Definition request_of (d : list (string * json)) : Request :=
  mkRequest (Ok (JDict d)).

(** The entry the listing shows for a container, in engine state [w]. *)
Definition listed {W} {engine : Engine W} (w : W) (c : Container) : json :=
  container_entry c (display_image (container_image_tags c w)).


(** The calls that only read the engine. *)
Definition is_read (c : Call) : bool :=
  match c with
  | CList _ | CGet _ | CReload _ | CImageTags _ | CStats _ => true
  | _ => false
  end.

(** The image lookups that the listing spends on a container: the
    condition reads the tags once, the subscript reads them again when
    there are some. *)
Definition image_lookups {W} {engine : Engine W} (w : W) (c : Container) : list Call :=
  match container_image_tags c w with
  | Ok (_ :: _) => [CImageTags c; CImageTags c]
  | _ => [CImageTags c]
  end.


(** The success body of [container_stats]. *)
Definition stats_report (cpu memory : float) : json :=
  JDict [("success", JBool true); ("cpu", JFloat cpu); ("memory", JFloat memory)].

(* ================================================================== *)
(** * Properties *)

(* ------------------------------------------------------------------ *)
(** ** Signs of rounded results *)

Section Rounding.

Lemma shr_1_nonneg (mrs : shr_record) :
  0 <= shr_m mrs -> 0 <= shr_m (shr_1 mrs).
Proof.
  destruct mrs as [m r s]; simpl.
  destruct m as [|p|p]; [ | destruct p | ]; simpl; lia.
Qed.

Lemma iter_shr_1_nonneg (p : positive) :
  forall mrs, 0 <= shr_m mrs -> 0 <= shr_m (iter_pos shr_1 p mrs).
Proof.
  induction p as [p IH|p IH|]; simpl; intros mrs H.
  - apply IH, IH, shr_1_nonneg, H.
  - apply IH, IH, H.
  - apply shr_1_nonneg, H.
Qed.

Lemma shr_fexp_nonneg (m e : Z) (l : location) :
  0 <= m -> 0 <= shr_m (fst (shr_fexp prec emax m e l)).
Proof.
  intros H. unfold shr_fexp, shr.
  assert (H0 : 0 <= shr_m (shr_record_of_loc m l))
    by (destruct l as [|[| |]]; exact H).
  destruct (fexp prec emax (Zdigits2 m + e) - e); simpl; auto.
  apply iter_shr_1_nonneg, H0.
Qed.

Lemma round_nearest_even_nonneg (m : Z) (l : location) :
  0 <= m -> 0 <= round_nearest_even m l.
Proof.
  intros H. destruct l as [|[| |]]; simpl; try lia.
  destruct (Z.even m); lia.
Qed.

(** Rounding a non-negative mantissa gives a number of the sign asked. *)
Lemma binary_round_aux_sign (s : bool) (m e : Z) (l : location) :
  0 <= m -> has_sign s (binary_round_aux prec emax s m e l).
Proof.
  intros H. unfold binary_round_aux.
  pose proof (shr_fexp_nonneg e l H) as H1.
  destruct (shr_fexp prec emax m e l) as [mrs1 e1]; simpl in H1.
  pose proof (round_nearest_even_nonneg (loc_of_shr_record mrs1) H1) as H2.
  pose proof (shr_fexp_nonneg e1 loc_Exact H2) as H3.
  destruct (shr_fexp prec emax _ e1 loc_Exact) as [mrs2 e2]; simpl in H3.
  destruct (shr_m mrs2) as [|p|p]; simpl; try reflexivity.
  - destruct (e2 <=? _); reflexivity.
  - lia.
Qed.

Lemma binary_round_sign (s : bool) (m : positive) (e : Z) :
  has_sign s (binary_round prec emax s m e).
Proof.
  unfold binary_round.
  destruct (shl_align m e _) as [mz ez].
  apply binary_round_aux_sign. lia.
Qed.

Lemma div_eucl_quotient_nonneg (a b : Z) :
  0 <= a -> 0 < b -> 0 <= fst (Z.div_eucl a b).
Proof.
  intros Ha Hb.
  change (fst (Z.div_eucl a b)) with (a / b).
  apply Z.div_pos; assumption.
Qed.

(** The quotient of two positive ints is a number with the sign bit
    clear. *)
Lemma SFdiv_pos_sign (a b : positive) :
  has_sign false (SFdiv prec emax (exact_int (Zpos a)) (exact_int (Zpos b))).
Proof.
  simpl exact_int. unfold SFdiv, SFdiv_core_binary.
  set (m' := match _ - _ with Z0 => Zpos a | Zpos _ => _ | Zneg _ => 0 end).
  assert (Hm : 0 <= m').
  { subst m'. destruct (_ - _); try lia. apply Z.shiftl_nonneg. lia. }
  pose proof (div_eucl_quotient_nonneg (b := Zpos b) Hm eq_refl) as Hq.
  destruct (Z.div_eucl m' (Zpos b)) as [q r]; simpl in Hq.
  apply binary_round_aux_sign, Hq.
Qed.

(** A product of two finite numbers with the sign bit clear. *)
Lemma fmul_sign_finite (x y : float) :
  has_sign false x -> has_sign false y ->
  is_finite x = true -> is_finite y = true ->
  has_sign false (fmul x y).
Proof.
  intros Hx Hy Hfx Hfy.
  destruct x as [sx|sx| |sx mx ex], y as [sy|sy| |sy my ey];
    simpl in *; subst; try discriminate; try reflexivity.
  apply binary_round_aux_sign. lia.
Qed.

(** A product with a positive finite constant: an infinite left factor
    stays an infinity, no NaN arises. *)
Lemma fmul_sign_const (x : float) (m : positive) (e : Z) :
  has_sign false x ->
  has_sign false (fmul x (S754_finite false m e)).
Proof.
  intros Hx.
  destruct x as [sx|sx| |sx mx ex];
    simpl in *; subst; try contradiction; try reflexivity.
  apply binary_round_aux_sign. lia.
Qed.

Lemma has_sign_false_nonneg (x : float) :
  has_sign false x -> fleb f0_0 x = true.
Proof.
  destruct x; simpl; intros H; try contradiction; subst; reflexivity.
Qed.

End Rounding.

(* ------------------------------------------------------------------ *)
(** ** Magnitudes of rounded results *)

Section Magnitude.

Lemma below_finite (d : Z) (x : float) : below d x -> is_finite x = true.
Proof. destruct x; simpl; intros H; try contradiction; reflexivity. Qed.

Lemma digits2_pos_le (p : positive) :
  forall k, Zpos p < 2 ^ k -> Zpos (digits2_pos p) <= k.
Proof.
  induction p as [p IH|p IH|]; intros k H; simpl digits2_pos.
  - assert (Hk : 0 < k).
    { destruct (Z.ltb_spec 0 k) as [|Hk]; [ assumption | ].
      destruct (Z.eq_dec k 0) as [->|]; [ simpl in H; lia | ].
      rewrite Z.pow_neg_r in H by lia. lia. }
    replace k with (Z.succ (k - 1)) in H by lia.
    rewrite Z.pow_succ_r in H by lia.
    specialize (IH (k - 1) ltac:(lia)). lia.
  - assert (Hk : 0 < k).
    { destruct (Z.ltb_spec 0 k) as [|Hk]; [ assumption | ].
      destruct (Z.eq_dec k 0) as [->|]; [ simpl in H; lia | ].
      rewrite Z.pow_neg_r in H by lia. lia. }
    replace k with (Z.succ (k - 1)) in H by lia.
    rewrite Z.pow_succ_r in H by lia.
    specialize (IH (k - 1) ltac:(lia)). lia.
  - destruct (Z.ltb_spec 0 k) as [|Hk]; [ lia | ].
    destruct (Z.eq_dec k 0) as [->|]; [ simpl in H; lia | ].
    rewrite Z.pow_neg_r in H by lia. lia.
Qed.

Lemma Zdigits2_le (m k : Z) :
  0 <= m -> 0 <= k -> m < 2 ^ k -> Zdigits2 m <= k.
Proof.
  intros Hm Hk H. destruct m as [|p|p]; simpl; try lia.
  apply digits2_pos_le, H.
Qed.

Lemma shr_1_div2 (mrs : shr_record) :
  0 <= shr_m mrs -> shr_m (shr_1 mrs) = shr_m mrs / 2.
Proof.
  destruct mrs as [m r s]; simpl. intros H.
  destruct m as [|[p|p|]|p]; simpl; try reflexivity; try lia.
  - rewrite Pos2Z.inj_xI. symmetry.
    rewrite Z.mul_comm, Z.div_add_l by lia. reflexivity.
  - rewrite Pos2Z.inj_xO. symmetry.
    rewrite Z.mul_comm, Z.div_mul by lia. reflexivity.
Qed.

Lemma iter_shr_1_div (p : positive) :
  forall mrs, 0 <= shr_m mrs ->
  shr_m (iter_pos shr_1 p mrs) = shr_m mrs / 2 ^ Zpos p.
Proof.
  induction p as [p IH|p IH|]; intros mrs H; simpl iter_pos.
  - rewrite IH by (apply iter_shr_1_nonneg, shr_1_nonneg, H).
    rewrite IH by (apply shr_1_nonneg, H).
    rewrite shr_1_div2 by exact H.
    rewrite !Z.div_div by lia.
    replace (2 ^ Zpos p~1) with (2 * (2 ^ Zpos p * 2 ^ Zpos p)); [ reflexivity | ].
    rewrite <- Z.pow_add_r, <- Z.pow_succ_r by lia.
    f_equal. lia.
  - rewrite IH by (apply iter_shr_1_nonneg, H).
    rewrite IH by exact H.
    rewrite Z.div_div by lia.
    replace (2 ^ Zpos p~0) with (2 ^ Zpos p * 2 ^ Zpos p); [ reflexivity | ].
    rewrite <- Z.pow_add_r by lia. f_equal. lia.
  - rewrite shr_1_div2 by exact H. reflexivity.
Qed.

Lemma shr_fexp_under (d m e : Z) (l : location) :
  0 <= d -> under d m e ->
  under d (shr_m (fst (shr_fexp prec emax m e l))) (snd (shr_fexp prec emax m e l)).
Proof.
  intros Hd (Hm & He & Hlt). unfold shr_fexp, shr.
  assert (H0 : shr_m (shr_record_of_loc m l) = m)
    by (destruct l as [|[| |]]; reflexivity).
  pose proof (Zdigits2_le Hm (k := d - e) ltac:(lia) Hlt) as Hdig.
  destruct (fexp prec emax (Zdigits2 m + e) - e) as [|n|n] eqn:En; simpl fst; simpl snd;
    try (rewrite H0; repeat split; assumption).
  rewrite iter_shr_1_div by (rewrite H0; exact Hm). rewrite H0.
  assert (Hn : e + Zpos n <= d).
  { unfold fexp, emin, prec, emax in En. lia. }
  repeat split.
  - apply Z.div_pos; lia.
  - exact Hn.
  - apply Z.div_lt_upper_bound; [ lia | ].
    rewrite <- Z.pow_add_r by lia.
    replace (Zpos n + (d - (e + Zpos n))) with (d - e) by lia. exact Hlt.
Qed.

Lemma round_nearest_even_le (m : Z) (l : location) :
  round_nearest_even m l <= m + 1.
Proof.
  destruct l as [|[| |]]; simpl; try lia. destruct (Z.even m); lia.
Qed.

(** Rounding keeps the magnitude under the next power of two, so below
    the overflow threshold nothing rounds to an infinity. *)
Lemma binary_round_aux_below (d : Z) (s : bool) (m e : Z) (l : location) :
  0 <= d <= 970 -> under d m e ->
  below (d + 1) (binary_round_aux prec emax s m e l).
Proof.
  intros Hd Hu. unfold binary_round_aux.
  pose proof (@shr_fexp_under d m e l ltac:(lia) Hu) as H1.
  destruct (shr_fexp prec emax m e l) as [mrs1 e1]; simpl fst in H1; simpl snd in H1.
  destruct H1 as (H1m & H1e & H1lt).
  set (m1 := round_nearest_even (shr_m mrs1) (loc_of_shr_record mrs1)).
  assert (Hu1 : under (d + 1) m1 e1).
  { pose proof (round_nearest_even_nonneg (loc_of_shr_record mrs1) H1m).
    pose proof (round_nearest_even_le (shr_m mrs1) (loc_of_shr_record mrs1)).
    repeat split; [ assumption | lia | ].
    replace (d + 1 - e1) with (Z.succ (d - e1)) by lia.
    rewrite Z.pow_succ_r by lia. fold m1 in H, H0. lia. }
  pose proof (@shr_fexp_under (d + 1) m1 e1 loc_Exact ltac:(lia) Hu1) as H2.
  destruct (shr_fexp prec emax m1 e1 loc_Exact) as [mrs2 e2];
    simpl fst in H2; simpl snd in H2.
  destruct H2 as (H2m & H2e & H2lt).
  destruct (shr_m mrs2) as [|p|p]; simpl; [ exact I | | lia ].
  destruct (Z.leb_spec e2 971) as [_|Hbad].
  - simpl. split; [ lia | exact H2lt ].
  - lia.
Qed.

End Magnitude.

Section Totality.

Lemma SFdiv_core_under (d : Z) (a b : positive) :
  0 <= d -> Zpos a < 2 ^ d ->
  let '(q, e, _) := SFdiv_core_binary prec emax (Zpos a) 0 (Zpos b) 0 in
  under d q e.
Proof.
  intros Hd Ha. unfold SFdiv_core_binary.
  set (e' := Z.min _ (0 - 0)).
  assert (He' : e' <= 0) by (subst e'; lia).
  set (m' := match 0 - 0 - e' with Z0 => Zpos a | Zpos _ => _ | Zneg _ => 0 end).
  assert (Hm : 0 <= m' /\ m' < 2 ^ (d - e')).
  { subst m'. destruct (0 - 0 - e') as [|s|s] eqn:Es; try lia.
    - replace (d - e') with d by lia. lia.
    - rewrite Z.shiftl_mul_pow2 by lia.
      replace (d - e') with (d + Zpos s) by lia.
      rewrite Z.pow_add_r by lia.
      assert (0 < 2 ^ Zpos s) by (apply Z.pow_pos_nonneg; lia).
      nia. }
  destruct Hm as [Hm0 Hm1].
  pose proof (Z.div_pos m' (Zpos b) Hm0 ltac:(lia)) as Hq0.
  pose proof (Z.mul_div_le m' (Zpos b) ltac:(lia)) as Hq1.
  change (m' / Zpos b) with (fst (Z.div_eucl m' (Zpos b))) in Hq0, Hq1.
  destruct (Z.div_eucl m' (Zpos b)) as [q r]; simpl fst in Hq0, Hq1.
  repeat split; [ exact Hq0 | lia | nia ].
Qed.

(** True division of ints under [2 ^ d] in magnitude does not overflow. *)
Lemma SFdiv_exact_below (d a b : Z) :
  0 <= d <= 970 -> b <> 0 -> Z.abs a < 2 ^ d ->
  below (d + 1) (SFdiv prec emax (exact_int a) (exact_int b)).
Proof.
  intros Hd Hb Ha.
  destruct a as [|a|a], b as [|b|b]; try contradiction; simpl exact_int;
    try exact I; unfold SFdiv;
    pose proof (@SFdiv_core_under d a b ltac:(lia) Ha) as Hu;
    destruct (SFdiv_core_binary prec emax (Zpos a) 0 (Zpos b) 0) as [[q e] l];
    apply binary_round_aux_below; assumption.
Qed.

Lemma int_truediv_total (d a b : Z) :
  0 <= d <= 970 -> b <> 0 -> Z.abs a < 2 ^ d ->
  exists q, int_truediv a b = Ok q /\ below (d + 1) q.
Proof.
  intros Hd Hb Ha. unfold int_truediv.
  destruct (Z.eqb_spec b 0) as [|_]; [ contradiction | ].
  pose proof (@SFdiv_exact_below d a b Hd Hb Ha) as H.
  rewrite (below_finite _ _ H). eexists. split; [ reflexivity | exact H ].
Qed.

Lemma iter_xO_pow (m p : positive) :
  Zpos (Pos.iter xO m p) = Zpos m * 2 ^ Zpos p.
Proof.
  induction p as [|p IH] using Pos.peano_ind.
  - simpl. lia.
  - rewrite Pos.iter_succ, Pos2Z.inj_xO, IH, Pos2Z.inj_succ.
    rewrite Z.pow_succ_r by lia. ring.
Qed.

(** Aligning a mantissa keeps the value and never raises the exponent. *)
Lemma shl_align_value (m : positive) (e e' : Z) :
  let '(mz, ez) := shl_align m e e' in
  ez <= e /\ Zpos mz = Zpos m * 2 ^ (e - ez).
Proof.
  unfold shl_align.
  destruct (e' - e) as [|p|p] eqn:E.
  - rewrite Z.sub_diag. simpl. lia.
  - rewrite Z.sub_diag. simpl. lia.
  - replace (e - e') with (Zpos p) by lia.
    rewrite iter_xO_pow. lia.
Qed.

Lemma binary_round_below (d : Z) (s : bool) (m : positive) :
  0 <= d <= 970 -> Zpos m < 2 ^ d ->
  below (d + 1) (binary_round prec emax s m 0).
Proof.
  intros Hd Hm. unfold binary_round.
  pose proof (shl_align_value m 0 (fexp prec emax (Zpos (digits2_pos m) + 0))) as H.
  destruct (shl_align m 0 _) as [mz ez]. destruct H as (Hez & Hmz).
  apply binary_round_aux_below; [ exact Hd | ].
  repeat split; [ lia | lia | ].
  rewrite Hmz. replace (d - ez) with (d + (0 - ez)) by lia.
  rewrite Z.pow_add_r by lia.
  assert (0 < 2 ^ (0 - ez)) by (apply Z.pow_pos_nonneg; lia).
  nia.
Qed.

Lemma float_of_int_total (d n : Z) :
  0 <= d <= 970 -> Z.abs n < 2 ^ d ->
  exists x, float_of_int n = Ok x /\ below (d + 1) x.
Proof.
  intros Hd Hn. unfold float_of_int.
  assert (H : below (d + 1) (binary_normalize prec emax n 0 false)).
  { destruct n as [|p|p]; simpl binary_normalize;
      [ exact I | apply binary_round_below; assumption
      | apply binary_round_below; assumption ]. }
  rewrite (below_finite _ _ H). eexists. split; [ reflexivity | exact H ].
Qed.

(** A product of finite numbers is finite while the magnitudes stay under
    the overflow threshold. *)
Lemma fmul_below (dx dy : Z) (x y : float) :
  0 <= dx -> 0 <= dy -> dx + dy <= 970 ->
  below dx x -> below dy y -> below (dx + dy + 1) (fmul x y).
Proof.
  intros Hdx Hdy Hd Hx Hy.
  destruct x as [sx|sx| |sx mx ex], y as [sy|sy| |sy my ey];
    simpl in Hx, Hy; try contradiction; try exact I.
  destruct Hx as [Hex Hmx], Hy as [Hey Hmy].
  unfold fmul, SFmul. apply binary_round_aux_below; [ lia | ].
  repeat split; [ lia | lia | ].
  replace (dx + dy - (ex + ey)) with ((dx - ex) + (dy - ey)) by lia.
  rewrite Z.pow_add_r by lia. rewrite Pos2Z.inj_mul. nia.
Qed.

End Totality.

Section TotalityOfStats.

Lemma div_half_even_bounds (n d : Z) :
  0 <= n -> 0 < d -> 0 <= div_half_even n d <= n / d + 1.
Proof.
  intros Hn Hd. unfold div_half_even.
  pose proof (Z.div_pos n d Hn Hd).
  destruct (2 * (n mod d) ?= d); [ destruct (Z.even (n / d)) | | ]; lia.
Qed.

(** [round(x, 2)] of a finite float well under the overflow threshold is
    a finite float. *)
Lemma py_round_total (d : Z) (x : float) :
  0 <= d <= 960 -> below d x ->
  exists r, py_round x 2 = Ok r /\ below (d + 9) r.
Proof.
  intros Hd Hx.
  destruct x as [s|s| |s m e]; simpl in Hx; try contradiction.
  { exists (S754_zero s). split; [ reflexivity | exact I ]. }
  destruct Hx as [He Hm]. unfold py_round.
  change (10 ^ Z.of_nat 2) with 100.
  set (k := if 0 <=? e then Zpos m * 2 ^ e * 100
            else div_half_even (Zpos m * 100) (2 ^ (- e))).
  assert (Hk : 0 <= k < 2 ^ (d + 8)).
  { subst k. destruct (Z.leb_spec 0 e) as [He0|He0].
    - assert (H1 : Zpos m * 2 ^ e < 2 ^ d).
      { replace d with ((d - e) + e) at 1 by lia.
        rewrite Z.pow_add_r by lia.
        assert (0 < 2 ^ e) by (apply Z.pow_pos_nonneg; lia). nia. }
      assert (0 < 2 ^ e) by (apply Z.pow_pos_nonneg; lia).
      replace (d + 8) with (d + 1 + 7) by lia.
      rewrite Z.pow_add_r, Z.pow_add_r by lia.
      change (2 ^ 7) with 128. change (2 ^ 1) with 2. nia.
    - assert (Hp : 0 < 2 ^ (- e)) by (apply Z.pow_pos_nonneg; lia).
      pose proof (@div_half_even_bounds (Zpos m * 100) (2 ^ (- e))
                    ltac:(lia) Hp) as Hb.
      assert (Hq : Zpos m * 100 / 2 ^ (- e) < 2 ^ (d + 7)).
      { apply Z.div_lt_upper_bound; [ exact Hp | ].
        rewrite <- Z.pow_add_r by lia.
        replace (- e + (d + 7)) with ((d - e) + 7) by lia.
        rewrite Z.pow_add_r by lia. change (2 ^ 7) with 128. nia. }
      replace (d + 8) with (Z.succ (d + 7)) by lia.
      rewrite Z.pow_succ_r by lia.
      assert (0 < 2 ^ (d + 7)) by (apply Z.pow_pos_nonneg; lia). lia. }
  destruct (Z.eq_dec k 0) as [Hz|Hnz].
  { rewrite Hz. exists (S754_zero s). split; [ reflexivity | exact I ]. }
  assert (Hr : below (d + 9)
                 (SFdiv prec emax (exact_int (if s then - k else k)) (exact_int 100))).
  { replace (d + 9) with (d + 8 + 1) by lia.
    apply SFdiv_exact_below; [ lia | discriminate | ].
    destruct s; lia. }
  destruct k as [|pk|pk]; [ contradiction | | lia ].
  rewrite (below_finite _ _ Hr). eexists. split; [ reflexivity | exact Hr ].
Qed.

Lemma f100_0_below : below 7 f100_0.
Proof. split; [ lia | reflexivity ]. Qed.

(** The CPU percentage is defined for deltas and CPU counts under
    [2 ^ 64]. *)
Lemma cpu_percent_of_total (cpu_delta system_delta num_cpus : Z) :
  cpu_delta < 2 ^ 64 -> 0 <= num_cpus < 2 ^ 64 ->
  exists x, cpu_percent_of cpu_delta system_delta num_cpus = Ok x /\ below 139 x.
Proof.
  intros Hc Hn. unfold cpu_percent_of.
  destruct (Z.gtb_spec system_delta 0) as [Hs|Hs];
    destruct (Z.gtb_spec cpu_delta 0) as [Hc0|Hc0]; simpl;
    try (exists f0_0; split; [ reflexivity | exact I ]).
  destruct (@int_truediv_total 64 cpu_delta system_delta ltac:(lia) ltac:(lia)
              ltac:(lia)) as (q & -> & Hq).
  cbn [rbind]. unfold fmul_int.
  destruct (@float_of_int_total 64 num_cpus ltac:(lia) ltac:(lia))
    as (n & -> & Hn').
  cbn [rbind]. eexists. split; [ reflexivity | ].
  change 139 with (131 + 7 + 1).
  apply fmul_below; try lia; [ | exact f100_0_below ].
  change 131 with (65 + 65 + 1).
  apply fmul_below; try lia; assumption.
Qed.

End TotalityOfStats.

(* ------------------------------------------------------------------ *)
(** ** The float model on known values

    Each line is what CPython prints for the same expression. *)

(** [1 / 3] is [0.3333333333333333], that is [6004799503160661 * 2 ** -54]. *)
Example truediv_one_third :
  int_truediv 1 3 = Ok (S754_finite false 6004799503160661 (-54)).
Proof. vm_compute. reflexivity. Qed.

(** [0 / -5] is [-0.0]. *)
Example truediv_negative_zero : int_truediv 0 (-5) = Ok (S754_zero true).
Proof. vm_compute. reflexivity. Qed.

(** [10 ** 400 / (10 ** 399 + 1)] is [10.0], although neither operand
    fits a float. *)
Example truediv_large_operands :
  int_truediv (10 ^ 400) (10 ^ 399 + 1) = float_of_int 10.
Proof. vm_compute. reflexivity. Qed.

(** [10 ** 400 / 1] raises [OverflowError]. *)
Example truediv_overflow :
  int_truediv (10 ^ 400) 1
  = Raise (mkExn OverflowError "integer division result too large for a float" "").
Proof. vm_compute. reflexivity. Qed.

(** [round(2.675, 2)] is [2.67]: the float [2.675] lies under the tie. *)
Example round_2_675 :
  (x <~ int_truediv 2675 1000 ;; py_round x 2)%result = int_truediv 267 100.
Proof. vm_compute. reflexivity. Qed.

(** [round(0.125, 2)] is [0.12]: an exact tie goes to the even digit. *)
Example round_0_125 :
  (x <~ int_truediv 125 1000 ;; py_round x 2)%result = int_truediv 12 100.
Proof. vm_compute. reflexivity. Qed.

(** [round(-0.001, 2)] is [-0.0]. *)
Example round_keeps_sign :
  (x <~ int_truediv (-1) 1000 ;; py_round x 2)%result = Ok (S754_zero true).
Proof. vm_compute. reflexivity. Qed.

(** [(1 / 3) * 3 * 100.0] is [100.0]. *)
Example third_times_three :
  (q <~ int_truediv 1 3 ;; r <~ fmul_int q 3 ;; Ok (fmul r f100_0))%result
  = float_of_int 100.
Proof. vm_compute. reflexivity. Qed.

(* ------------------------------------------------------------------ *)
(** ** The metrics translator *)

Lemma num_cpus_of_positive (percpu : option (list Z)) :
  1 <= num_cpus_of percpu.
Proof.
  unfold num_cpus_of, len.
  destruct (Z.eqb_spec (Z.of_nat (List.length match percpu with
                                              | Some l => l
                                              | None => []
                                              end)) 0); lia.
Qed.

Lemma float_of_int_sign (n : Z) (x : float) :
  0 <= n -> float_of_int n = Ok x -> has_sign false x.
Proof.
  unfold float_of_int. intros Hn.
  destruct n as [|p|p]; simpl binary_normalize.
  - intros H. injection H as <-. reflexivity.
  - pose proof (binary_round_sign false p 0) as Hs.
    destruct (is_finite _); [ | discriminate ].
    intros H. injection H as <-. exact Hs.
  - lia.
Qed.

Lemma float_of_int_finite (n : Z) (x : float) :
  float_of_int n = Ok x -> is_finite x = true.
Proof.
  unfold float_of_int.
  destruct (is_finite _) eqn:E; [ | discriminate ].
  intros H. injection H as <-. exact E.
Qed.


Lemma int_truediv_pos (a b : Z) :
  0 < a -> 0 < b ->
  match int_truediv a b with
  | Ok q => has_sign false q /\ is_finite q = true
  | Raise e => exn_cls e = OverflowError
  end.
Proof.
  intros Ha Hb. unfold int_truediv.
  destruct (Z.eqb_spec b 0) as [->|_]; [ lia | ].
  destruct a as [|a|a]; try lia. destruct b as [|b|b]; try lia.
  pose proof (SFdiv_pos_sign a b) as Hs.
  destruct (is_finite _) eqn:E; simpl; auto.
Qed.


(* ------------------------------------------------------------------ *)
(** ** Strings *)

Lemma contains_tail (sub : string) (a : ascii) (s : string) :
  contains sub s = true -> contains sub (String a s) = true.
Proof.
  intros H.
  change (contains sub (String a s))
    with (if String.prefix sub (String a s) then true else contains sub s).
  rewrite H. destruct (String.prefix sub (String a s)); reflexivity.
Qed.

(** A substring stays one when text is put in front. *)
Lemma contains_skip (sub pre s : string) :
  contains sub s = true -> contains sub (pre ++ s) = true.
Proof.
  intros H. induction pre as [|a pre IH]; simpl append.
  - exact H.
  - apply contains_tail, IH.
Qed.

Lemma prefix_refl (s : string) : String.prefix s s = true.
Proof.
  induction s as [|a s IH]; simpl; [ reflexivity | ].
  destruct (ascii_dec a a); [ exact IH | congruence ].
Qed.

Lemma contains_refl (s : string) : contains s s = true.
Proof.
  pose proof (prefix_refl s) as H.
  destruct s; unfold contains; fold contains; rewrite H; reflexivity.
Qed.

(* ------------------------------------------------------------------ *)
(** ** The handler monad *)

Section MonadFacts.

Context {W : Type} {engine : Engine W}.

(** A catch-all [except] that only builds a response. *)
Lemma try_except_ret {A} (m : M A) (h : exn -> A) (w : W) :
  try_except m (fun e => ret (h e)) w =
  match m w with
  | (Ok a, w1, l) => (Ok a, w1, l)
  | (Raise e, w1, l) => (Ok (h e), w1, l)
  end.
Proof.
  unfold try_except, ret.
  destruct (m w) as [[[a|e] w1] l]; [ reflexivity | ].
  rewrite app_nil_r. reflexivity.
Qed.

Lemma bind_query {A B} (c : Call) (f : W -> result A) (k : A -> M B) (w : W) :
  bind (query c f) k w =
  match f w with
  | Ok a => let '(r, w', l) := k a w in (r, w', c :: l)
  | Raise e => (Raise e, w, [c])
  end.
Proof.
  unfold bind, query. destruct (f w); reflexivity.
Qed.

Lemma bind_command {A B} (c : Call) (f : W -> result A * W) (k : A -> M B) (w : W) :
  bind (command c f) k w =
  match f w with
  | (Ok a, w1) => let '(r, w', l) := k a w1 in (r, w', c :: l)
  | (Raise e, w1) => (Raise e, w1, [c])
  end.
Proof.
  unfold bind, command. destruct (f w) as [[a|e] w1]; reflexivity.
Qed.

Lemma bind_lift {A B} (r : result A) (k : A -> M B) (w : W) :
  bind (lift r) k w =
  match r with
  | Ok a => k a w
  | Raise e => (Raise e, w, [])
  end.
Proof.
  unfold bind, lift. destruct r as [a|e]; [ | reflexivity ].
  destruct (k a w) as [[r' w'] l]. reflexivity.
Qed.

Lemma bind_ret_r {A B} (m : M A) (f : A -> B) (w : W) :
  bind m (fun a => ret (f a)) w =
  match m w with
  | (Ok a, w1, l) => (Ok (f a), w1, l)
  | (Raise e, w1, l) => (Raise e, w1, l)
  end.
Proof.
  unfold bind, ret.
  destruct (m w) as [[[a|e] w1] l]; [ | reflexivity ].
  rewrite app_nil_r. reflexivity.
Qed.

End MonadFacts.

(* ------------------------------------------------------------------ *)
(** ** The state normalizer: [restart_container] *)

Section Restart.

Context {W : Type} {engine : Engine W}.




End Restart.

(* ------------------------------------------------------------------ *)
(** ** The allocator: [start_container] *)

Section Allocate.

Context {W : Type} {engine : Engine W}.

(** The handler on an object body, once both listings are known. *)
Lemma start_container_on_dict (d : list (string * json)) (w : W)
      (existing running : list Container) :
  containers_list true w = Ok existing ->
  containers_list false w = Ok running ->
  let name := dict_get d "name" (JStr (default_name existing)) in
  let port := base_port + len running in
  let calls := [CList true; CList false; CRun (wetty_params name port)] in
  start_container (request_of d) w =
  match containers_run (wetty_params name port) w with
  | (Ok c, w') => (Ok (jsonify (created c name port)), w', calls)
  | (Raise e, w') => (Ok (jsonify (failure (exn_str e))), w', calls)
  end.
Proof.
  intros Hall Hrun name port calls. subst name port calls.
  unfold start_container, request_of. simpl get_json.
  rewrite bind_lift. simpl getattr_get. rewrite bind_lift.
  unfold client_containers_list. rewrite bind_query, Hall.
  rewrite bind_query, Hrun.
  rewrite try_except_ret. unfold start_container_try, run.
  rewrite bind_command.
  destruct (containers_run _ w) as [[c|e] w']; reflexivity.
Qed.

(** C3.  With an object body that has no "name" key, the name handed to the
    engine and returned to the caller is "student_" followed by the decimal
    count, plus one, of the containers the engine lists with [all=True]
    (stopped ones included): "student_1" over no container, "student_2" over
    one. *)
Theorem default_name_counts_all (d : list (string * json)) (w : W)
        (existing running : list Container) :
  dict_lookup d "name" = None ->
  containers_list true w = Ok existing ->
  containers_list false w = Ok running ->
  let name := JStr ("student_" ++ format_int (len existing + 1)) in
  let port := base_port + len running in
  let calls := [CList true; CList false; CRun (wetty_params name port)] in
  run_name (wetty_params name port) = name
  /\ match containers_run (wetty_params name port) w with
     | (Ok c, w') =>
         start_container (request_of d) w
           = (Ok (jsonify (JDict [("success", JBool true);
                                  ("id", JStr (short_id c));
                                  ("name", name);
                                  ("port", JInt port);
                                  ("url", JStr (access_url port))])), w', calls)
     | (Raise e, w') =>
         start_container (request_of d) w
           = (Ok (jsonify (failure (exn_str e))), w', calls)
     end
  /\ default_name [] = "student_1"
  /\ (forall c, default_name [c] = "student_2").
Proof.
  intros Hname Hall Hrun name port calls.
  pose proof (start_container_on_dict d w Hall Hrun) as H. simpl in H.
  unfold dict_get in H. rewrite Hname in H.
  split; [ reflexivity | split; [ | split; [ reflexivity | reflexivity ] ] ].
  rewrite H. subst name port calls. unfold default_name.
  destruct (containers_run _ w) as [[c|e] w']; reflexivity.
Qed.

(** C4.  For every object body, the host port bound to the new container
    and returned to the caller is 5050 plus the number of containers in the
    engine's default listing (the running ones); the returned url ends with
    that port; a body that differs from another one elsewhere than under
    "name" (in particular in a "port" field) gives the same outcome.  Over
    an empty listing the port is 5050. *)
Theorem port_counts_running (d d' : list (string * json)) (w : W)
        (existing running : list Container) :
  containers_list true w = Ok existing ->
  containers_list false w = Ok running ->
  dict_lookup d' "name" = dict_lookup d "name" ->
  let name := dict_get d "name" (JStr (default_name existing)) in
  let port := 5050 + len running in
  let calls := [CList true; CList false; CRun (wetty_params name port)] in
  run_ports (wetty_params name port) = [("3000/tcp", port)]
  /\ match containers_run (wetty_params name port) w with
     | (Ok c, w') =>
         start_container (request_of d) w
           = (Ok (jsonify (JDict [("success", JBool true);
                                  ("id", JStr (short_id c));
                                  ("name", name);
                                  ("port", JInt port);
                                  ("url", JStr ("http://localhost:" ++ format_int port))])),
              w', calls)
     | (Raise e, w') =>
         start_container (request_of d) w
           = (Ok (jsonify (failure (exn_str e))), w', calls)
     end
  /\ start_container (request_of d') w = start_container (request_of d) w
  /\ contains (format_int port) ("http://localhost:" ++ format_int port) = true
  /\ 5050 + len (@nil Container) = 5050.
Proof.
  intros Hall Hrun Hsame name port calls.
  pose proof (start_container_on_dict d w Hall Hrun) as H.
  pose proof (start_container_on_dict d' w Hall Hrun) as H'.
  simpl in H, H'.
  split; [ reflexivity | split; [ | split; [ | split ] ] ].
  - rewrite H. subst name port calls.
    destruct (containers_run _ w) as [[c|e] w']; reflexivity.
  - rewrite H, H'. unfold dict_get. rewrite Hsame. reflexivity.
  - apply contains_skip, contains_refl.
  - reflexivity.
Qed.

(** C9.  A request whose body does not parse to a JSON object makes
    [start_container] raise: the exception of [get_json] itself, or the
    [AttributeError] of [data.get] on a value that is not a dict.  It leaves
    the handler before any engine call, since the two lines that compute
    the name and the port stand before the [try]; no response is built. *)
Theorem start_container_unguarded (req : Request) (w : W) :
  (forall d, get_json req <> Ok (JDict d)) ->
  exists e,
    start_container req w = (Raise e, w, [])
    /\ match get_json req with
       | Raise e' => e = e'
       | Ok _ => exn_cls e = AttributeError
       end.
Proof.
  intros Hnot. unfold start_container. rewrite bind_lift.
  destruct (get_json req) as [data|e] eqn:E.
  - rewrite bind_lift.
    destruct data; simpl getattr_get;
      try (eexists; split; [ reflexivity | reflexivity ]).
    exfalso. apply (Hnot d). reflexivity.
  - exists e. split; reflexivity.
Qed.

End Allocate.

(* ------------------------------------------------------------------ *)
(** ** Error translation *)

Section Errors.

Context {W : Type} {engine : Engine W}.

(** The [except] clauses of [restart_container] sort exceptions as the
    specification's categories do, although they test the API error before
    the permission error: no class is under both. *)
Lemma restart_except_categorize (e : exn) :
  restart_except e = category_response (categorize e) e.
Proof.
  unfold restart_except, categorize, isinstance.
  destruct (exn_cls e); reflexivity.
Qed.

(** The texts of the three named categories never coincide, whatever the
    engine's explanation. *)
Lemma category_texts_distinct (k1 k2 : category) (e1 e2 : exn) :
  k1 <> Uncategorized -> k2 <> Uncategorized -> k1 <> k2 ->
  body (category_response k1 e1) <> body (category_response k2 e2).
Proof.
  intros H1 H2 H12.
  destruct k1, k2; try congruence; simpl; intros E; discriminate E.
Qed.

(** A failing run of the [try] block stops at the call that raised:
    the resolution, the reload, or the one corrective call. *)
Lemma restart_try_calls (container_id : string) (w w' : W) (e : exn) (calls : list Call) :
  restart_container_try container_id w = (Raise e, w', calls) ->
  (calls = [CGet container_id] /\ containers_get container_id w = Raise e)
  \/ (exists c, calls = [CGet container_id; CReload c]
                /\ container_reload c w = Raise e)
  \/ (exists c c', calls = [CGet container_id; CReload c; CStart c']
                   /\ fst (container_start c' w) = Raise e)
  \/ (exists c c', calls = [CGet container_id; CReload c; CRestart c']
                   /\ fst (container_restart c' w) = Raise e).
Proof.
  unfold restart_container_try, client_containers_get, reload.
  rewrite bind_query.
  destruct (containers_get container_id w) as [c|e0] eqn:Hget.
  2:{ intros H. injection H as <- <- <-. left. split; reflexivity. }
  rewrite bind_query.
  destruct (container_reload c w) as [c'|e0] eqn:Hre.
  2:{ intros H. injection H as <- <- <-. right. left. exists c.
      split; [ reflexivity | exact Hre ]. }
  unfold start, restart.
  destruct (String.eqb (status c') "exited");
    [ | destruct (String.eqb (status c') "running");
        [ | destruct (str_in (status c') _) ] ];
    rewrite bind_command;
    match goal with
    | |- context [container_start c' w] =>
        destruct (container_start c' w) as [[[]|e0] w0] eqn:Hact
    | |- context [container_restart c' w] =>
        destruct (container_restart c' w) as [[[]|e0] w0] eqn:Hact
    end;
    simpl; intros H; try discriminate H; injection H as <- <- <-;
    right; right; [ left | right | left | left ];
    exists c, c'; (split; [ reflexivity | rewrite Hact; reflexivity ]).
Qed.

(** X13.  [restart_container] answers a failure by the class of the
    exception.  Whatever the [try] block raises is answered by the response
    of its class: an instance of [NotFound] (a container id that does not
    resolve) with status 404 and its own text, an instance of
    [PermissionError] with status 200 and its own text, any other API error
    with status 200 and the engine's explanation after a fixed prefix, and
    every other exception with [str(e)].  The three fixed texts differ
    pairwise, for all explanations.  The handler issues no call after the
    one that raised: each engine call appears at most once in the log. *)
Theorem restart_failure_categories (container_id : string) (w w' : W)
        (e : exn) (calls : list Call) :
  restart_container_try container_id w = (Raise e, w', calls) ->
  restart_container container_id w
    = (Ok (category_response (categorize e) e), w', calls)
  /\ status_code (category_response (categorize e) e)
       = (if isinstance e DockerNotFound then 404 else 200)
  /\ category_response NotFoundError e
       = mkResponse (failure "Container not found. Please refresh list.") 404
  /\ category_response PermissionDenied e
       = mkResponse (failure "Permission denied to access Docker socket.") 200
  /\ category_response EngineError e
       = mkResponse (failure ("Docker API error: " ++ exn_explanation e)) 200
  /\ (forall e1 e2,
        body (category_response NotFoundError e1)
          <> body (category_response PermissionDenied e2)
        /\ body (category_response NotFoundError e1)
             <> body (category_response EngineError e2)
        /\ body (category_response PermissionDenied e1)
             <> body (category_response EngineError e2))
  /\ (calls = [CGet container_id]
      \/ (exists c, calls = [CGet container_id; CReload c])
      \/ (exists c c', calls = [CGet container_id; CReload c; CStart c'])
      \/ (exists c c', calls = [CGet container_id; CReload c; CRestart c'])).
Proof.
  intros Hraise.
  split; [ | split; [ | split; [ | split; [ | split; [ | split ] ] ] ] ];
    try reflexivity.
  - unfold restart_container.
    rewrite try_except_ret, bind_ret_r, Hraise.
    rewrite restart_except_categorize. reflexivity.
  - unfold categorize, isinstance. destruct (exn_cls e); reflexivity.
  - intros e1 e2. repeat split;
      apply category_texts_distinct; discriminate.
  - destruct (restart_try_calls _ _ Hraise)
      as [[-> _]|[[c [-> _]]|[[c [c' [-> _]]]|[c [c' [-> _]]]]]]; eauto 6.
Qed.

End Errors.

(** C5.  Behind an inaccessible socket [restart_container] does not answer
    with its permission text.  The exception that reaches the handler is the
    transport's connection error around the [PermissionError], which is
    neither a [NotFound], nor an API error, nor a [PermissionError]; the
    clause of line 109 is passed over and the catch-all of line 111 answers,
    under status 200, with [str(e)].  That answer is not the one the handler
    keeps for a permission error. *)
Theorem restart_socket_denied (container_id : string) :
  @restart_container unit DeniedEngine.denied_engine container_id tt
    = (Ok (mkResponse
             (failure "('Connection aborted.', PermissionError(13, 'Permission denied'))")
             200),
       tt, [CGet container_id])
  /\ isinstance DeniedEngine.socket_denied PermissionError = false
  /\ categorize DeniedEngine.socket_denied = Uncategorized
  /\ restart_except DeniedEngine.socket_denied
     <> mkResponse (failure "Permission denied to access Docker socket.") 200.
Proof.
  split; [ | split; [ | split ] ]; try reflexivity.
  intros H. discriminate H.
Qed.

(* ------------------------------------------------------------------ *)
(** ** The listing: [list_containers] *)

Section Listing.

Context {W : Type} {engine : Engine W}.

(** The [try] block of the loop body never raises and leaves the engine
    alone. *)
Lemma image_name_of_display (c : Container) (w : W) :
  exists calls,
    image_name_of c w = (Ok (display_image (container_image_tags c w)), w, calls).
Proof.
  unfold image_name_of. rewrite try_except_ret.
  unfold image_tags. rewrite bind_query.
  destruct (container_image_tags c w) as [[|t ts]|e] eqn:E; simpl.
  - eexists. reflexivity.
  - rewrite bind_query, E. unfold lift. simpl. eexists. reflexivity.
  - eexists. reflexivity.
Qed.

Lemma list_loop_entries (cs : list Container) :
  forall (containers : list json) (w : W),
  exists calls,
    list_loop cs containers w = (Ok (containers ++ map (listed w) cs)%list, w, calls).
Proof.
  induction cs as [|c cs IH]; intros containers w; simpl list_loop.
  - exists []. unfold ret. rewrite app_nil_r. reflexivity.
  - destruct (image_name_of_display c w) as [l1 H1].
    destruct (IH (containers ++ [listed w c])%list w) as [l2 H2].
    exists (l1 ++ l2)%list. unfold bind. rewrite H1.
    unfold listed in H2 at 1. rewrite H2.
    rewrite <- app_assoc. reflexivity.
Qed.

(** C7.  Over the containers that the engine lists with [all=True], the
    listing answers with one entry per container, in order, each carrying
    the container's id, name and status and, as image, the first tag when
    the tag list is not empty, "untagged" when it is empty and "unknown"
    when resolving the tags raises.  The entry of a container depends on
    the tag resolution of that container alone, so a failure there changes
    one image field and nothing else: the listing is never cut short. *)
Theorem listing_isolates_tag_failures (w : W) (cs : list Container) :
  containers_list true w = Ok cs ->
  (exists calls,
     list_containers w
       = (Ok (mkResponse (JList (map (listed w) cs)) 200), w, CList true :: calls))
  /\ List.length (map (listed w) cs) = List.length cs
  /\ (forall c,
        listed w c
          = JDict [("id", JStr (short_id c)); ("name", JStr (name c));
                   ("status", JStr (status c));
                   ("image", JStr match container_image_tags c w with
                                  | Ok (t :: _) => t
                                  | Ok [] => "untagged"
                                  | Raise _ => "unknown"
                                  end)]).
Proof.
  intros Hlist. split; [ | split ].
  - destruct (list_loop_entries cs [] w) as [calls H].
    exists calls. unfold list_containers, client_containers_list.
    rewrite bind_query, Hlist. unfold bind at 1. rewrite H.
    simpl. rewrite app_nil_r. reflexivity.
  - apply length_map.
  - intros c. reflexivity.
Qed.

End Listing.

(* ------------------------------------------------------------------ *)
(** ** Removal: [remove_container] *)

Section Removal.

Context {W : Type} {engine : Engine W}.

Lemma remove_container_run (container_id : string) (w : W) :
  remove_container container_id w =
  match containers_get container_id w with
  | Ok c =>
      match container_remove c true w with
      | (Ok _, w') =>
          (Ok (jsonify (success_message ("Container " ++ container_id ++ " removed"))),
           w', [CGet container_id; CRemove c true])
      | (Raise e, w') =>
          (Ok (jsonify (failure (exn_str e))), w', [CGet container_id; CRemove c true])
      end
  | Raise e => (Ok (jsonify (failure (exn_str e))), w, [CGet container_id])
  end.
Proof.
  unfold remove_container. rewrite try_except_ret.
  unfold remove_container_try, client_containers_get, remove.
  rewrite bind_query.
  destruct (containers_get container_id w) as [c|e]; [ | reflexivity ].
  rewrite bind_command.
  destruct (container_remove c true w) as [[[]|e] w']; reflexivity.
Qed.

(** C8.  [remove_container] always asks for a forced removal: every
    [remove] call in its log carries [force=True], in whatever state the
    container is.  On an engine where the identifier resolves, the forced
    removal is carried out and the identifier no longer resolves afterwards,
    the first call answers with a success and the second with the failure
    built from the engine's not-found exception; the second call changes
    nothing, so the container is absent after either. *)
Theorem remove_twice (container_id : string) (w w1 : W) (c : Container) (e : exn) :
  containers_get container_id w = Ok c ->
  container_remove c true w = (Ok tt, w1) ->
  containers_get container_id w1 = Raise e ->
  isinstance e DockerNotFound = true ->
  remove_container container_id w
    = (Ok (jsonify (success_message ("Container " ++ container_id ++ " removed"))),
       w1, [CGet container_id; CRemove c true])
  /\ remove_container container_id w1
     = (Ok (jsonify (failure (exn_str e))), w1, [CGet container_id])
  /\ (forall id' w0, forallb forced (snd (remove_container id' w0)) = true).
Proof.
  intros Hget Hrm Hgone Hnf. split; [ | split ].
  - rewrite remove_container_run, Hget, Hrm. reflexivity.
  - rewrite remove_container_run, Hgone. reflexivity.
  - intros id' w0. rewrite remove_container_run.
    destruct (containers_get id' w0) as [c0|e0]; [ | reflexivity ].
    destruct (container_remove c0 true w0) as [[[]|e0] w']; reflexivity.
Qed.

End Removal.

(* ------------------------------------------------------------------ *)
(** ** Catch-all handlers: stats, stop, remove *)

Section CatchAll.

Context {W : Type} {engine : Engine W}.






End CatchAll.

(* ------------------------------------------------------------------ *)
(** ** The reported values: [container_stats] *)

Section Stats.

Context {W : Type} {engine : Engine W}.

(** Round-half-even lands within half a unit. *)
Lemma div_half_even_nearest (n d : Z) :
  0 < d -> 2 * Z.abs (n - div_half_even n d * d) <= d.
Proof.
  intros Hd. unfold div_half_even.
  pose proof (Z.div_mod n d ltac:(lia)) as Hdm.
  pose proof (Z.mod_pos_bound n d Hd) as Hr.
  destruct (Z.compare_spec (2 * (n mod d)) d) as [E|E|E];
    [ destruct (Z.even (n / d)) | | ]; nia.
Qed.

(** On a sample with all its counters, the [try] block of
    [container_stats] is the chain of the four float computations. *)
Lemma stats_body_full (t1 t0 s1 s0 : Z) (percpu percpu0 : option (list Z)) (u : Z) :
  stats_body (full_sample t1 t0 s1 s0 percpu percpu0 u) =
  (cpu_percent <~ cpu_percent_of (t1 - t0) (s1 - s0) (num_cpus_of percpu) ;;
   mem_usage <~ int_truediv u (1024 * 1024) ;;
   cpu <~ py_round cpu_percent 2 ;;
   memory <~ py_round mem_usage 2 ;;
   Ok (JDict [("success", JBool true); ("cpu", JFloat cpu);
              ("memory", JFloat memory)]))%result.
Proof. reflexivity. Qed.

(** [py_round] rounds to the nearest decimal. *)
Lemma py_round_rounded (ndigits : nat) (x r : float) :
  py_round x ndigits = Ok r -> rounded_to ndigits x r.
Proof.
  destruct x as [s|s| |s m e];
    try (simpl; intros H; injection H as <-; reflexivity).
  unfold py_round, rounded_to.
  set (p := 10 ^ Z.of_nat ndigits).
  assert (Hp : 0 < p) by (apply Z.pow_pos_nonneg; lia).
  set (k := if 0 <=? e then Zpos m * 2 ^ e * p
            else div_half_even (Zpos m * p) (2 ^ (- e))).
  intros H. exists k. split; [ | split ].
  - subst k. destruct (Z.leb_spec 0 e) as [He|He].
    + assert (0 < 2 ^ e) by (apply Z.pow_pos_nonneg; lia). nia.
    + apply div_half_even_bounds; [ lia | apply Z.pow_pos_nonneg; lia ].
  - subst k. destruct (Z.leb_spec 0 e) as [He|He]; cbv iota.
    + rewrite (Z.max_r 0 e), (Z.max_l 0 (- e)) by lia.
      rewrite Z.pow_0_r, Z.mul_1_r, Z.sub_diag. simpl. lia.
    + rewrite (Z.max_l 0 e), (Z.max_r 0 (- e)) by lia.
      rewrite Z.pow_0_r, Z.mul_1_r.
      apply div_half_even_nearest, Z.pow_pos_nonneg; lia.
  - destruct k as [|pk|pk].
    + injection H as <-. reflexivity.
    + destruct (is_finite _); [ | discriminate ].
      injection H as <-. reflexivity.
    + destruct (is_finite _); [ | discriminate ].
      injection H as <-. reflexivity.
Qed.

(** The handler on a sample with all its counters, when the four float
    computations are defined. *)
Lemma container_stats_defined (container_id : string) (w : W) (c : Container)
      (t1 t0 s1 s0 u : Z) (percpu percpu0 : option (list Z))
      (cpu_percent mem_usage cpu memory : float) :
  containers_get container_id w = Ok c ->
  container_stats_sample c w = Ok (full_sample t1 t0 s1 s0 percpu percpu0 u) ->
  cpu_percent_of (t1 - t0) (s1 - s0) (num_cpus_of percpu) = Ok cpu_percent ->
  int_truediv u (1024 * 1024) = Ok mem_usage ->
  py_round cpu_percent 2 = Ok cpu ->
  py_round mem_usage 2 = Ok memory ->
  container_stats container_id w
    = (Ok (mkResponse (JDict [("success", JBool true); ("cpu", JFloat cpu);
                              ("memory", JFloat memory)]) 200),
       w, [CGet container_id; CStats c]).
Proof.
  intros Hget Hstats Hcpu Hmem Hrc Hrm.
  unfold container_stats. rewrite try_except_ret.
  unfold container_stats_try, client_containers_get, stats.
  rewrite bind_query, Hget, bind_query, Hstats, bind_lift.
  rewrite stats_body_full, Hcpu. cbn [rbind].
  rewrite Hmem. cbn [rbind]. rewrite Hrc. cbn [rbind]. rewrite Hrm.
  reflexivity.
Qed.

(** C6.  On a sample with all its counters, each an unsigned 64-bit
    value as the engine sends them, [container_stats] answers with a
    success that reports as "memory" the memory usage in bytes divided by
    1024*1024 and rounded to two decimal places, and as "cpu" the CPU
    percentage rounded to two decimal places: each reported value is the
    binary64 nearest to a two-place decimal that lies within 0.005 of the
    unrounded one.  No float operation overflows on the way.  104857600
    bytes are reported as 100.0. *)
Theorem stats_reports_rounded (container_id : string) (w : W) (c : Container)
        (t1 t0 s1 s0 u : Z) (percpu percpu0 : option (list Z)) :
  containers_get container_id w = Ok c ->
  container_stats_sample c w = Ok (full_sample t1 t0 s1 s0 percpu percpu0 u) ->
  0 <= t1 < 2 ^ 64 -> 0 <= t0 < 2 ^ 64 -> 0 <= u < 2 ^ 64 ->
  num_cpus_of percpu < 2 ^ 64 ->
  (exists cpu_percent mem_usage cpu memory,
     cpu_percent_of (t1 - t0) (s1 - s0) (num_cpus_of percpu) = Ok cpu_percent
     /\ int_truediv u (1024 * 1024) = Ok mem_usage
     /\ py_round cpu_percent 2 = Ok cpu /\ rounded_to 2 cpu_percent cpu
     /\ py_round mem_usage 2 = Ok memory /\ rounded_to 2 mem_usage memory
     /\ container_stats container_id w
        = (Ok (mkResponse (JDict [("success", JBool true); ("cpu", JFloat cpu);
                                  ("memory", JFloat memory)]) 200),
           w, [CGet container_id; CStats c]))
  /\ (mb <~ int_truediv 104857600 (1024 * 1024) ;; py_round mb 2)%result
     = float_of_int 100.
Proof.
  intros Hget Hstats Ht1 Ht0 Hu Hn. split; [ | vm_compute; reflexivity ].
  pose proof (num_cpus_of_positive percpu) as Hn1.
  destruct (@cpu_percent_of_total (t1 - t0) (s1 - s0) (num_cpus_of percpu)
              ltac:(lia) ltac:(lia)) as (cpu_percent & Hcpu & Bcpu).
  destruct (@int_truediv_total 64 u (1024 * 1024) ltac:(lia) ltac:(lia)
              ltac:(lia)) as (mem_usage & Hmem & Bmem).
  destruct (@py_round_total 139 cpu_percent ltac:(lia) Bcpu) as (cpu & Hrc & _).
  destruct (@py_round_total 65 mem_usage ltac:(lia) Bmem) as (memory & Hrm & _).
  exists cpu_percent, mem_usage, cpu, memory.
  repeat split; try assumption.
  - apply py_round_rounded, Hrc.
  - apply py_round_rounded, Hrm.
  - apply (container_stats_defined _ _ Hget Hstats Hcpu Hmem Hrc Hrm).
Qed.

End Stats.

(* ------------------------------------------------------------------ *)
(** ** The reference engine forgets what it removes *)

Section ReferenceEngine.

Import RefEngine.

Lemma find_none_filter {A} (p q : A -> bool) (l : list A) :
  (forall x, q x = true -> p x = false) ->
  find p (filter q l) = None.
Proof.
  intros H. induction l as [|x l IH]; simpl; [ reflexivity | ].
  destruct (q x) eqn:Q; [ | exact IH ].
  simpl. rewrite (H x Q). exact IH.
Qed.

(** On the reference engine a forced removal of a resolved container
    succeeds, and the identifier no longer resolves afterwards: the engine
    answers with a [NotFound]. *)
Lemma ref_remove_then_absent (container_id : string) (w : World) (c : Container) :
  containers_get container_id w = Ok c ->
  exists w1,
    container_remove c true w = (Ok tt, w1)
    /\ containers_get container_id w1 = Raise (not_found container_id).
Proof.
  simpl. unfold lookup.
  destruct (find (matches container_id) w) as [e|] eqn:F; [ | discriminate ].
  simpl. intros H. injection H as <-.
  destruct (find_some _ _ F) as [Hin Hm].
  unfold ref_remove, lookup.
  assert (F' : exists e', find (matches (short_id (entry_container e))) w = Some e').
  { destruct (find (matches (short_id (entry_container e))) w) as [e'|] eqn:F';
      [ eauto | ].
    pose proof (find_none _ _ F' e Hin) as Hno.
    unfold matches in Hno. rewrite String.eqb_refl in Hno. discriminate. }
  destruct F' as [e' ->]. rewrite andb_false_r.
  eexists. split; [ reflexivity | ].
  rewrite find_none_filter; [ reflexivity | ].
  intros x Hx. apply andb_prop in Hx. destruct Hx as [H1 H2].
  apply negb_true_iff in H1, H2.
  unfold matches in Hm, H1, H2 |- *.
  apply orb_false_iff in H1, H2. destruct H1 as [H1a H1b], H2 as [H2a H2b].
  apply orb_true_iff in Hm. destruct Hm as [Hm|Hm];
    apply String.eqb_eq in Hm; rewrite <- Hm.
  - rewrite H1a, H1b. reflexivity.
  - rewrite H2a, H2b. reflexivity.
Qed.

End ReferenceEngine.

(* ------------------------------------------------------------------ *)
(** ** Worked instances on the reference engine *)

Section Instances.

Import RefEngine.


(** A create request without a name, over the three sample containers. *)
Lemma default_name_counts_all_witness :
  fst (fst (start_container (request_of [("port", JInt 9)]) world0))
    = Ok (jsonify (JDict [("success", JBool true);
                          ("id", JStr "c4");
                          ("name", JStr "student_4");
                          ("port", JInt 5051);
                          ("url", JStr "http://localhost:5051")])).
Proof.
  pose proof (@default_name_counts_all World ref_engine [("port", JInt 9)] world0
                (map entry_container world0) [entry_container alice]
                eq_refl eq_refl eq_refl) as H.
  apply proj2, proj1 in H. simpl in H. rewrite H. reflexivity.
Defined.

(** The "port" field of the body does not move the allocated port. *)
Lemma port_counts_running_witness :
  start_container (request_of [("name", JStr "dave"); ("port", JInt 9)]) world0
    = start_container (request_of [("name", JStr "dave")]) world0
  /\ contains "5051" "http://localhost:5051" = true.
Proof.
  pose proof (@port_counts_running World ref_engine
                [("name", JStr "dave")] [("name", JStr "dave"); ("port", JInt 9)]
                world0 (map entry_container world0) [entry_container alice]
                eq_refl eq_refl eq_refl) as H.
  destruct H as (_ & _ & Hsame & Hurl & _).
  split; [ exact Hsame | exact Hurl ].
Defined.

(** A body that is JSON [null]. *)
Lemma start_container_unguarded_witness :
  exists e,
    start_container (mkRequest (Ok JNull)) world0 = (Raise e, world0, [])
    /\ exn_cls e = AttributeError.
Proof.
  apply (@start_container_unguarded World ref_engine (mkRequest (Ok JNull)) world0).
  intros d H. discriminate H.
Defined.

(** Restarting an identifier that does not resolve. *)
Lemma restart_failure_categories_witness :
  restart_container "nobody" world0
    = (Ok (mkResponse (failure "Container not found. Please refresh list.") 404),
       world0, [CGet "nobody"]).
Proof.
  exact (proj1 (@restart_failure_categories World ref_engine "nobody" world0 world0
                  (not_found "nobody") [CGet "nobody"] eq_refl)).
Defined.

(** The stats of "aaa111": deltas 50 and 500 on two CPUs, 100 MiB. *)
Lemma stats_reports_rounded_witness :
  exists cpu memory,
    container_stats "aaa111" world0
      = (Ok (mkResponse (JDict [("success", JBool true); ("cpu", JFloat cpu);
                                ("memory", JFloat memory)]) 200),
         world0, [CGet "aaa111"; CStats (entry_container alice)]).
Proof.
  destruct (@stats_reports_rounded World ref_engine "aaa111" world0
              (entry_container alice) 150 100 1500 1000 104857600
              (Some [70; 80]) None eq_refl eq_refl
              ltac:(split; [ discriminate | reflexivity ])
              ltac:(split; [ discriminate | reflexivity ])
              ltac:(split; [ discriminate | reflexivity ])
              eq_refl)
    as [(cpu_percent & mem_usage & cpu & memory & _ & _ & _ & _ & _ & _ & H) _].
  exists cpu, memory. exact H.
Defined.

(** The listing of the three sample containers: tagged, untagged, and one
    whose image does not resolve. *)
Lemma listing_isolates_tag_failures_witness :
  exists calls,
    list_containers world0
      = (Ok (mkResponse
               (JList [container_entry (entry_container alice) "wettyoss/wetty:latest";
                       container_entry (entry_container bob) "untagged";
                       container_entry (entry_container carol) "unknown"]) 200),
         world0, CList true :: calls).
Proof.
  exact (proj1 (@listing_isolates_tag_failures World ref_engine world0
                  (map entry_container world0) eq_refl)).
Defined.

(** Removing "aaa111" twice. *)
Lemma remove_twice_witness :
  remove_container "aaa111" world0
    = (Ok (jsonify (success_message "Container aaa111 removed")),
       [bob; carol], [CGet "aaa111"; CRemove (entry_container alice) true])
  /\ remove_container "aaa111" [bob; carol]
     = (Ok (jsonify (failure (exn_str (not_found "aaa111")))),
        [bob; carol], [CGet "aaa111"]).
Proof.
  pose proof (@remove_twice World ref_engine "aaa111" world0 [bob; carol]
                (entry_container alice) (not_found "aaa111")
                eq_refl eq_refl eq_refl eq_refl) as H.
  split; [ exact (proj1 H) | exact (proj1 (proj2 H)) ].
Defined.

End Instances.

(* ================================================================== *)
(** * Further properties of the handlers *)

(* ------------------------------------------------------------------ *)
(** ** [start_container] beyond the allocator *)

Section Create.

Context {W : Type} {engine : Engine W}.

(** X1.  The default name is an argument of [data.get], so it is computed
    before the lookup, and both listings stand before the [try]: when the
    engine fails to list, with [all=True] or without, [start_container]
    raises that exception itself, for every object body, also one that
    brings its own name.  No container is run and the engine state is
    untouched. *)
Theorem start_container_listing_failure (d : list (string * json)) (w : W) (e : exn) :
  containers_list true w = Raise e
  \/ (exists existing, containers_list true w = Ok existing
                       /\ containers_list false w = Raise e) ->
  exists calls,
    start_container (request_of d) w = (Raise e, w, calls)
    /\ (calls = [CList true] \/ calls = [CList true; CList false]).
Proof.
  intros H. unfold start_container, request_of. simpl get_json.
  rewrite bind_lift. simpl getattr_get. rewrite bind_lift.
  unfold client_containers_list. rewrite bind_query.
  destruct H as [H|(existing & H1 & H2)].
  - rewrite H. eexists. split; [ reflexivity | left; reflexivity ].
  - rewrite H1, bind_query, H2.
    eexists. split; [ reflexivity | right; reflexivity ].
Qed.

(** X2.  A name supplied in the body is used as it is, whatever JSON
    value it is (a string, [null], a number): it goes unchanged to the
    engine's [run] and back to the caller, with no look at the names in
    use.  The port is still 5050 plus the length of the default listing. *)
Theorem start_container_supplied_name (d : list (string * json)) (w : W)
        (v : json) (existing running : list Container) :
  dict_lookup d "name" = Some v ->
  containers_list true w = Ok existing ->
  containers_list false w = Ok running ->
  let port := 5050 + len running in
  let calls := [CList true; CList false; CRun (wetty_params v port)] in
  run_name (wetty_params v port) = v
  /\ match containers_run (wetty_params v port) w with
     | (Ok c, w') =>
         start_container (request_of d) w
           = (Ok (jsonify (JDict [("success", JBool true);
                                  ("id", JStr (short_id c));
                                  ("name", v);
                                  ("port", JInt port);
                                  ("url", JStr (access_url port))])), w', calls)
     | (Raise e, w') =>
         start_container (request_of d) w
           = (Ok (jsonify (failure (exn_str e))), w', calls)
     end.
Proof.
  intros Hname Hall Hrun port calls.
  pose proof (start_container_on_dict d w Hall Hrun) as H. simpl in H.
  unfold dict_get in H. rewrite Hname in H.
  split; [ reflexivity | ].
  rewrite H. subst port calls.
  destruct (containers_run _ w) as [[c|e] w']; reflexivity.
Qed.

(** X3.  [start_container] answers exactly when it has asked the engine to
    run a container.  A response, success or failure, has status 200 and
    comes after the two listings and one [run]; an exception that leaves the
    handler was raised before any [run], by calls that only read, and the
    engine state is the one the handler found. *)
Theorem start_container_answers_iff_run (req : Request) (w : W) :
  match start_container req w with
  | (Ok r, _, calls) =>
      status_code r = 200
      /\ exists p, calls = [CList true; CList false; CRun p]
  | (Raise _, w', calls) =>
      w' = w /\ forallb is_read calls = true
  end.
Proof.
  unfold start_container. rewrite bind_lift.
  destruct (get_json req) as [data|e]; [ | split; reflexivity ].
  rewrite bind_lift.
  destruct (getattr_get data) as [d|e]; [ | split; reflexivity ].
  unfold client_containers_list. rewrite bind_query.
  destruct (containers_list true w) as [existing|e]; [ | split; reflexivity ].
  rewrite bind_query.
  destruct (containers_list false w) as [running|e]; [ | split; reflexivity ].
  rewrite try_except_ret. unfold start_container_try, run.
  rewrite bind_command.
  destruct (containers_run _ w) as [[c|e] w'];
    (split; [ reflexivity | eexists; reflexivity ]).
Qed.

End Create.

(* ------------------------------------------------------------------ *)
(** ** [list_containers] beyond the entries *)

Section ListingCalls.

Context {W : Type} {engine : Engine W}.

Lemma image_name_of_calls (c : Container) (w : W) :
  image_name_of c w
  = (Ok (display_image (container_image_tags c w)), w, image_lookups w c).
Proof.
  unfold image_name_of, image_lookups. rewrite try_except_ret.
  unfold image_tags. rewrite bind_query.
  destruct (container_image_tags c w) as [[|t ts]|e] eqn:E; simpl;
    try reflexivity.
  rewrite bind_query, E. reflexivity.
Qed.

Lemma list_loop_calls (cs : list Container) :
  forall (containers : list json) (w : W),
    list_loop cs containers w
    = (Ok (containers ++ map (listed w) cs)%list, w, flat_map (image_lookups w) cs).
Proof.
  induction cs as [|c cs IH]; intros containers w; simpl list_loop.
  - unfold ret. rewrite app_nil_r. reflexivity.
  - unfold bind. rewrite image_name_of_calls, IH.
    rewrite <- app_assoc. reflexivity.
Qed.

(** X4.  [list_containers] has no [try] around the listing call: when
    the engine fails to list, the handler raises that exception instead of
    answering, after this one call. *)
Theorem list_containers_listing_failure (w : W) (e : exn) :
  containers_list true w = Raise e ->
  list_containers w = (Raise e, w, [CList true]).
Proof.
  intros H. unfold list_containers, client_containers_list.
  rewrite bind_query, H. reflexivity.
Qed.

(** X5.  What a listing costs and touches.  After the listing call the
    handler looks the image tags up once for each container, and a second
    time for each container that has tags; it issues nothing else, so it
    makes between [n + 1] and [2 n + 1] calls for [n] containers, all of
    them reads, and hands the engine state back as it found it. *)
Theorem list_containers_calls (w : W) (cs : list Container) :
  containers_list true w = Ok cs ->
  let calls := CList true :: flat_map (image_lookups w) cs in
  list_containers w = (Ok (mkResponse (JList (map (listed w) cs)) 200), w, calls)
  /\ forallb is_read calls = true
  /\ (List.length cs + 1 <= List.length calls <= 2 * List.length cs + 1)%nat.
Proof.
  intros Hlist calls. subst calls. split; [ | split ].
  - unfold list_containers, client_containers_list.
    rewrite bind_query, Hlist. unfold bind at 1. rewrite list_loop_calls.
    simpl. rewrite app_nil_r. reflexivity.
  - simpl. clear Hlist. induction cs as [|c cs IH]; simpl; [ reflexivity | ].
    rewrite forallb_app, IH, andb_true_r. unfold image_lookups.
    destruct (container_image_tags c w) as [[|t ts]|e]; reflexivity.
  - simpl List.length. clear Hlist.
    induction cs as [|c cs IH]; simpl; [ lia | ].
    rewrite length_app.
    assert (H : (1 <= List.length (image_lookups w c) <= 2)%nat).
    { unfold image_lookups.
      destruct (container_image_tags c w) as [[|t ts]|e]; simpl; lia. }
    lia.
Qed.

End ListingCalls.

(* ------------------------------------------------------------------ *)
(** ** [stop_container] and the reads of [container_stats] *)

Section StopAndRead.

Context {W : Type} {engine : Engine W}.

(** X6.  [stop_container] resolves the identifier and issues one [stop]
    on the container as resolved: it neither reloads it nor looks at its
    status, so an already stopped container is left to the engine.  The
    success message quotes the identifier the caller gave, not the
    container's name; what the engine raises comes back as [str(e)]. *)
Theorem stop_container_run (container_id : string) (w : W) (c : Container) :
  containers_get container_id w = Ok c ->
  let calls := [CGet container_id; CStop c] in
  match container_stop c w with
  | (Ok _, w') =>
      stop_container container_id w
        = (Ok (mkResponse
                 (JDict [("success", JBool true);
                         ("message", JStr ("Container " ++ container_id ++ " stopped"))])
                 200), w', calls)
  | (Raise e, w') =>
      stop_container container_id w
        = (Ok (mkResponse (failure (exn_str e)) 200), w', calls)
  end.
Proof.
  intros Hget calls. subst calls.
  unfold stop_container. rewrite try_except_ret.
  unfold stop_container_try, client_containers_get, stop.
  rewrite bind_query, Hget, bind_command.
  destruct (container_stop c w) as [[[]|e] w']; reflexivity.
Qed.

(** X7.  [container_stats] only reads: for every identifier and engine
    state it answers, hands the state back as it found it, and has issued
    the resolution alone or the resolution followed by one stats call. *)
Theorem container_stats_reads_only (container_id : string) (w : W) :
  exists r calls,
    container_stats container_id w = (Ok r, w, calls)
    /\ (calls = [CGet container_id]
        \/ exists c, calls = [CGet container_id; CStats c]).
Proof.
  unfold container_stats. rewrite try_except_ret.
  unfold container_stats_try, client_containers_get, stats.
  rewrite bind_query.
  destruct (containers_get container_id w) as [c|e].
  2:{ eexists. eexists. split; [ reflexivity | left; reflexivity ]. }
  rewrite bind_query.
  destruct (container_stats_sample c w) as [st|e].
  2:{ eexists. eexists. split; [ reflexivity | right; eexists; reflexivity ]. }
  rewrite bind_lift.
  destruct (stats_body st) as [j|e];
    (eexists; eexists; split; [ reflexivity | right; eexists; reflexivity ]).
Qed.

End StopAndRead.

(* ------------------------------------------------------------------ *)
(** ** [container_stats]: what is reported and what is not *)

Section Reported.

Context {W : Type} {engine : Engine W}.






Lemma int_truediv_nonneg_sign (a b : Z) (q : float) :
  0 <= a -> 0 < b -> int_truediv a b = Ok q -> has_sign false q.
Proof.
  intros Ha Hb H. destruct (Z.eq_dec a 0) as [->|Hnz].
  - unfold int_truediv in H. destruct (Z.eqb_spec b 0); [ lia | ].
    destruct b as [|b|b]; try lia. simpl in H.
    injection H as <-. reflexivity.
  - pose proof (@int_truediv_pos a b ltac:(lia) Hb) as Hq.
    rewrite H in Hq. apply Hq.
Qed.

Lemma cpu_percent_of_sign (cpu_delta system_delta num_cpus : Z) (x : float) :
  0 <= num_cpus ->
  cpu_percent_of cpu_delta system_delta num_cpus = Ok x -> has_sign false x.
Proof.
  intros Hn. unfold cpu_percent_of.
  destruct (Z.gtb_spec system_delta 0) as [Hs|Hs]; simpl;
    [ | intros H; injection H as <-; reflexivity ].
  destruct (Z.gtb_spec cpu_delta 0) as [Hc|Hc]; simpl;
    [ | intros H; injection H as <-; reflexivity ].
  pose proof (@int_truediv_pos cpu_delta system_delta ltac:(lia) ltac:(lia)) as Hq.
  destruct (int_truediv cpu_delta system_delta) as [q|e]; simpl; [ | discriminate ].
  destruct Hq as [Hqs Hqf]. unfold fmul_int.
  destruct (float_of_int num_cpus) as [n|e] eqn:En; simpl; [ | discriminate ].
  intros H. injection H as <-.
  apply fmul_sign_const, fmul_sign_finite; auto.
  - apply (float_of_int_sign (n := num_cpus)); [ exact Hn | exact En ].
  - apply (float_of_int_finite _ En).
Qed.

(** [round] keeps a number that is not negative so. *)
Lemma py_round_sign (x r : float) (ndigits : nat) :
  has_sign false x -> py_round x ndigits = Ok r -> has_sign false r.
Proof.
  destruct x as [s|s| |s m e]; simpl has_sign;
    try (intros Hs H; simpl in H; injection H as <-; exact Hs);
    try contradiction.
  intros -> H. unfold py_round in H.
  set (p := 10 ^ Z.of_nat ndigits) in H.
  assert (Hp : 0 < p) by (apply Z.pow_pos_nonneg; lia).
  set (k := if 0 <=? e then Zpos m * 2 ^ e * p
            else div_half_even (Zpos m * p) (2 ^ (- e))) in H.
  assert (Hk : 0 <= k).
  { subst k. destruct (Z.leb_spec 0 e) as [He|He].
    - assert (0 < 2 ^ e) by (apply Z.pow_pos_nonneg; lia). nia.
    - apply div_half_even_bounds; [ lia | apply Z.pow_pos_nonneg; lia ]. }
  destruct k as [|pk|pk]; [ injection H as <-; reflexivity | | lia ].
  destruct p as [|pp|pp]; try lia.
  pose proof (SFdiv_pos_sign pk pp) as Hs.
  destruct (is_finite _); [ | discriminate ].
  injection H as <-. exact Hs.
Qed.

(** X9.  For a sample with all its counters, each an unsigned 64-bit
    value, both reported numbers are finite and not negative: the answer
    never carries a NaN, an infinity or a minus sign, which also holds when
    the CPU counters went backwards. *)
Theorem container_stats_finite_nonneg (container_id : string) (w : W) (c : Container)
        (t1 t0 s1 s0 u : Z) (percpu percpu0 : option (list Z)) :
  containers_get container_id w = Ok c ->
  container_stats_sample c w = Ok (full_sample t1 t0 s1 s0 percpu percpu0 u) ->
  0 <= t1 < 2 ^ 64 -> 0 <= t0 < 2 ^ 64 -> 0 <= u < 2 ^ 64 ->
  num_cpus_of percpu < 2 ^ 64 ->
  exists cpu memory,
    container_stats container_id w
      = (Ok (mkResponse (stats_report cpu memory) 200), w,
         [CGet container_id; CStats c])
    /\ is_finite cpu = true /\ fleb f0_0 cpu = true
    /\ is_finite memory = true /\ fleb f0_0 memory = true.
Proof.
  intros Hget Hstats Ht1 Ht0 Hu Hn.
  pose proof (num_cpus_of_positive percpu) as Hn1.
  destruct (@cpu_percent_of_total (t1 - t0) (s1 - s0) (num_cpus_of percpu)
              ltac:(lia) ltac:(lia)) as (cpu_percent & Hcpu & Bcpu).
  destruct (@int_truediv_total 64 u (1024 * 1024) ltac:(lia) ltac:(lia)
              ltac:(lia)) as (mem_usage & Hmem & Bmem).
  destruct (@py_round_total 139 cpu_percent ltac:(lia) Bcpu) as (cpu & Hrc & Bc).
  destruct (@py_round_total 65 mem_usage ltac:(lia) Bmem) as (memory & Hrm & Bm).
  exists cpu, memory. split; [ | repeat split ].
  - apply (container_stats_defined _ _ Hget Hstats Hcpu Hmem Hrc Hrm).
  - apply (below_finite _ _ Bc).
  - apply has_sign_false_nonneg.
    apply (@py_round_sign cpu_percent cpu 2); [ | exact Hrc ].
    apply (@cpu_percent_of_sign (t1 - t0) (s1 - s0) (num_cpus_of percpu));
      [ lia | exact Hcpu ].
  - apply (below_finite _ _ Bm).
  - apply has_sign_false_nonneg.
    apply (@py_round_sign mem_usage memory 2); [ | exact Hrm ].
    apply (@int_truediv_nonneg_sign u (1024 * 1024)); [ lia | lia | exact Hmem ].
Qed.

(** X10.  When the CPU counter or the system counter did not advance
    between the two readings of a sample (no time elapsed, or a counter
    reset), the reported cpu is exactly 0.0, whatever the number of CPUs;
    the memory is reported as usual. *)
Theorem container_stats_idle (container_id : string) (w : W) (c : Container)
        (t1 t0 s1 s0 u : Z) (percpu percpu0 : option (list Z)) :
  containers_get container_id w = Ok c ->
  container_stats_sample c w = Ok (full_sample t1 t0 s1 s0 percpu percpu0 u) ->
  t1 <= t0 \/ s1 <= s0 ->
  0 <= u < 2 ^ 64 ->
  exists mem_usage memory,
    int_truediv u (1024 * 1024) = Ok mem_usage
    /\ py_round mem_usage 2 = Ok memory
    /\ container_stats container_id w
       = (Ok (mkResponse (stats_report (S754_zero false) memory) 200), w,
          [CGet container_id; CStats c]).
Proof.
  intros Hget Hstats Hidle Hu.
  assert (Hcpu : cpu_percent_of (t1 - t0) (s1 - s0) (num_cpus_of percpu) = Ok f0_0).
  { unfold cpu_percent_of.
    destruct (Z.gtb_spec (s1 - s0) 0) as [Hs|Hs]; simpl; [ | reflexivity ].
    destruct (Z.gtb_spec (t1 - t0) 0) as [Hc|Hc]; simpl; [ lia | reflexivity ]. }
  destruct (@int_truediv_total 64 u (1024 * 1024) ltac:(lia) ltac:(lia)
              ltac:(lia)) as (mem_usage & Hmem & Bmem).
  destruct (@py_round_total 65 mem_usage ltac:(lia) Bmem) as (memory & Hrm & _).
  exists mem_usage, memory. split; [ exact Hmem | split; [ exact Hrm | ] ].
  apply (container_stats_defined _ _ Hget Hstats Hcpu Hmem eq_refl Hrm).
Qed.

End Reported.

(* ------------------------------------------------------------------ *)
(** ** Names, urls and the calls of [restart_container] *)

Section NamesAndCalls.

Context {W : Type} {engine : Engine W}.

Lemma to_int_not_nil (z : Z) :
  Z.to_int z <> Decimal.Pos Decimal.Nil /\ Z.to_int z <> Decimal.Neg Decimal.Nil.
Proof.
  split; intros H; pose proof (DecimalZ.of_to z) as E; rewrite H in E;
    simpl in E; subst z; discriminate H.
Qed.

(** Distinct ints print differently. *)
Lemma format_int_inj (a b : Z) : format_int a = format_int b -> a = b.
Proof.
  unfold format_int. intros H.
  apply (f_equal NilZero.int_of_string) in H.
  rewrite !NilZero.isi in H by apply to_int_not_nil.
  injection H as H. apply DecimalZ.to_int_inj, H.
Qed.

Lemma append_inj (p a b : string) : p ++ a = p ++ b -> a = b.
Proof.
  induction p as [|c p IH]; simpl; intros H; [ exact H | ].
  injection H as H. apply IH, H.
Qed.

(** X11.  The default name is a function of the number of containers and
    nothing else: two listings get the same default name exactly when they
    have the same length, so names differ as long as the count differs and
    come back once a removal brings the count back.  Likewise two ports get
    the same access url exactly when they are equal. *)
Theorem default_name_by_count (existing existing' : list Container) (port port' : Z) :
  (default_name existing = default_name existing'
   <-> List.length existing = List.length existing')
  /\ (access_url port = access_url port' <-> port = port').
Proof.
  split; split.
  - unfold default_name, len. intros H.
    apply append_inj, format_int_inj in H. lia.
  - unfold default_name, len. intros ->. reflexivity.
  - unfold access_url. intros H. apply append_inj, format_int_inj in H. exact H.
  - intros ->. reflexivity.
Qed.

(** X12.  [restart_container] always answers, and whatever the outcome
    it has issued the resolution, then at most the reload, then at most one
    [start] or [restart]: never a [stop], a [remove] or a [run], and never
    the same call twice.  As long as no [start] or [restart] went out the
    engine state is the one the handler found. *)
Theorem restart_container_calls (container_id : string) (w : W) :
  exists r w' calls,
    restart_container container_id w = (Ok r, w', calls)
    /\ ((calls = [CGet container_id] /\ w' = w)
        \/ (exists c, calls = [CGet container_id; CReload c] /\ w' = w)
        \/ (exists c c', calls = [CGet container_id; CReload c; CStart c'])
        \/ (exists c c', calls = [CGet container_id; CReload c; CRestart c'])).
Proof.
  unfold restart_container. rewrite try_except_ret, bind_ret_r.
  unfold restart_container_try, client_containers_get, reload.
  rewrite bind_query.
  destruct (containers_get container_id w) as [c|e].
  2:{ do 3 eexists. split; [ reflexivity | left; split; reflexivity ]. }
  rewrite bind_query.
  destruct (container_reload c w) as [c'|e].
  2:{ do 3 eexists. split; [ reflexivity | ].
      right; left. exists c. split; reflexivity. }
  unfold start, restart.
  destruct (String.eqb (status c') "exited");
    [ | destruct (String.eqb (status c') "running");
        [ | destruct (str_in (status c') _) ] ];
    rewrite bind_command;
    match goal with
    | |- context [container_start c' w] =>
        destruct (container_start c' w) as [[[]|e] w0]
    | |- context [container_restart c' w] =>
        destruct (container_restart c' w) as [[[]|e] w0]
    end;
    do 3 eexists; (split; [ reflexivity | ]);
    right; right;
    first [ left; exists c, c'; reflexivity | right; exists c, c'; reflexivity ].
Qed.

End NamesAndCalls.

(* ------------------------------------------------------------------ *)
(** ** Further worked instances *)

Section MoreInstances.

Import RefEngine DownEngine.

(** A create request with its own name, while the daemon is down. *)
Lemma start_container_listing_failure_witness :
  exists calls,
    start_container (request_of [("name", JStr "dave")]) tt
      = (Raise unreachable, tt, calls)
    /\ (calls = [CList true] \/ calls = [CList true; CList false]).
Proof.
  apply (@start_container_listing_failure unit down_engine
           [("name", JStr "dave")] tt unreachable).
  left. reflexivity.
Defined.

(** A create request whose name is JSON [null]. *)
Lemma start_container_supplied_name_witness :
  fst (fst (start_container (request_of [("name", JNull)]) world0))
    = Ok (jsonify (JDict [("success", JBool true);
                          ("id", JStr "c4");
                          ("name", JNull);
                          ("port", JInt 5051);
                          ("url", JStr "http://localhost:5051")])).
Proof.
  pose proof (@start_container_supplied_name World ref_engine
                [("name", JNull)] world0 JNull
                (map entry_container world0) [entry_container alice]
                eq_refl eq_refl eq_refl) as H.
  apply proj2 in H. simpl in H. rewrite H. reflexivity.
Defined.

(** Listing while the daemon is down. *)
Lemma list_containers_listing_failure_witness :
  list_containers tt = (Raise unreachable, tt, [CList true]).
Proof.
  apply (@list_containers_listing_failure unit down_engine tt unreachable).
  reflexivity.
Defined.

(** The three sample containers cost four image lookups: two for the
    tagged one, one each for the others. *)
Lemma list_containers_calls_witness :
  snd (list_containers world0)
    = [CList true;
       CImageTags (entry_container alice); CImageTags (entry_container alice);
       CImageTags (entry_container bob); CImageTags (entry_container carol)].
Proof.
  pose proof (@list_containers_calls World ref_engine world0
                (map entry_container world0) eq_refl) as H.
  apply proj1 in H. rewrite H. reflexivity.
Defined.

(** Stopping "student_1" by its name. *)
Lemma stop_container_run_witness :
  stop_container "student_1" world0
    = (Ok (mkResponse (success_message "Container student_1 stopped") 200),
       set_status "aaa111" "exited" world0,
       [CGet "student_1"; CStop (entry_container alice)]).
Proof.
  exact (@stop_container_run World ref_engine "student_1" world0
           (entry_container alice) eq_refl).
Defined.


(** The stats of "aaa111" are finite and not negative. *)
Lemma container_stats_finite_nonneg_witness :
  exists cpu memory,
    container_stats "aaa111" world0
      = (Ok (mkResponse (stats_report cpu memory) 200), world0,
         [CGet "aaa111"; CStats (entry_container alice)])
    /\ is_finite cpu = true /\ fleb f0_0 cpu = true
    /\ is_finite memory = true /\ fleb f0_0 memory = true.
Proof.
  apply (@container_stats_finite_nonneg World ref_engine "aaa111" world0
           (entry_container alice) 150 100 1500 1000 104857600
           (Some [70; 80]) None eq_refl eq_refl);
    try (split; [ discriminate | reflexivity ]); reflexivity.
Defined.

(** The stats of "carol", whose counters did not move: 0.0 and 1.5. *)
Lemma container_stats_idle_witness :
  exists mem_usage memory,
    int_truediv 1572864 (1024 * 1024) = Ok mem_usage
    /\ py_round mem_usage 2 = Ok memory
    /\ container_stats "carol" world0
       = (Ok (mkResponse (stats_report (S754_zero false) memory) 200), world0,
          [CGet "carol"; CStats (entry_container carol)]).
Proof.
  apply (@container_stats_idle World ref_engine "carol" world0
           (entry_container carol) 100 100 1000 1000 1572864 None None
           eq_refl eq_refl).
  - left. discriminate.
  - split; [ discriminate | reflexivity ].
Defined.

End MoreInstances.
